(** * ftdi-nand-flash-reader: the bit-bang NAND protocol of [bitbang_ft2232.c]

    A shallow embedding of the bus primitives, the three latch operations,
    the address-cycle map and the composed flash operations, followed by the
    properties established about them.

    Conventions of the embedding.
    - An [unsigned char] is a [Z] kept in [0, 256); every assignment to one
      writes the wrap-around [mod 256] out.  A [uint32_t] is a [Z] with
      [mod 2^32] written out where the source can overflow.
    - The two globals [iobus_value] and [controlbus_value] are fields of an
      explicit [state] that is threaded through every function.
    - The FTDI adapter is the rest of [state]: the direction mask last given
      to [ftdi_set_bitmode] on the I/O channel, the list of transactions the
      adapter has carried out (the [wire], oldest first), and how many pin
      reads each channel has served.  What the pins answer to the n-th read
      is given by two functions [iobus_pins] and [controlbus_pins], fixed for
      a run and universally quantified in the theorems.
    - [printf] (console logging) and [usleep] (fixed delays) change neither
      the globals nor the adapter and are left out, except for the verdict
      line of [check_ID_register], which is that function's result.
    - Loop counters of type [unsigned int] are [nat]. *)

From Stdlib Require Import ZArith Lia Bool List String.
From stdpp Require Import base list.
Import ListNotations.

Local Open Scope Z_scope.

(** ** Constants *)

(* Pins on BDBUS0..7 (control bus) *)
Definition PIN_CLE : Z := 0x01.
Definition PIN_ALE : Z := 0x02.
Definition PIN_nCE : Z := 0x04.
Definition PIN_nWE : Z := 0x08.
Definition PIN_nRE : Z := 0x10.
Definition PIN_nWP : Z := 0x20.
Definition PIN_RDY : Z := 0x40. (* READY / nBUSY output signal *)
Definition PIN_LED : Z := 0x80.
Definition CONTROLBUS_BITMASK : Z := 0xBF.

Definition IOBUS_BITMASK_WRITE : Z := 0xFF.
Definition IOBUS_BITMASK_READ : Z := 0x00.

Definition STATUSREG_IO0 : Z := 0x01.

Definition EXIT_FAILURE : Z := 1.

Definition CMD_READID : Z := 0x90. (* read ID register *)
Definition CMD_READ1 : list Z := [0x00; 0x30]. (* page read *)
Definition CMD_BLOCKERASE : list Z := [0x60; 0xD0]. (* block erase *)
Definition CMD_READSTATUS : Z := 0x70. (* read status *)

Inductive onoff_t : Set := OFF | ON.
Inductive iobus_inout_t : Set := IOBUS_IN | IOBUS_OUT.

(** ** The adapter and the program state *)

(** One transaction on the FTDI adapter. *)
Inductive event : Set :=
| EvControlWrite (b : Z)  (* ftdi_write_data(nandflash_controlbus, buf, 1) *)
| EvIoWrite (b : Z)       (* ftdi_write_data(nandflash_iobus, buf, 1) *)
| EvIoBitmode (mask : Z)  (* ftdi_set_bitmode(nandflash_iobus, mask, BITMODE_BITBANG) *)
| EvIoRead (b : Z)        (* ftdi_read_pins(nandflash_iobus, &buf) *)
| EvControlRead (b : Z).  (* ftdi_read_pins(nandflash_controlbus, &buf) *)

Record state : Set := mkState {
  iobus_value : Z;          (* global unsigned char iobus_value *)
  controlbus_value : Z;     (* global unsigned char controlbus_value *)
  iobus_bitmask : Z;        (* direction mask of the I/O channel *)
  wire : list event;        (* adapter transactions so far, oldest first *)
  iobus_reads : nat;        (* pin reads served on the I/O channel *)
  controlbus_reads : nat    (* pin reads served on the control channel *)
}.

Definition with_iobus_value (v : Z) (st : state) : state :=
  mkState v (controlbus_value st) (iobus_bitmask st) (wire st)
          (iobus_reads st) (controlbus_reads st).

Definition with_controlbus_value (v : Z) (st : state) : state :=
  mkState (iobus_value st) v (iobus_bitmask st) (wire st)
          (iobus_reads st) (controlbus_reads st).

Definition with_iobus_bitmask (m : Z) (st : state) : state :=
  mkState (iobus_value st) (controlbus_value st) m (wire st)
          (iobus_reads st) (controlbus_reads st).

Definition emit (e : event) (st : state) : state :=
  mkState (iobus_value st) (controlbus_value st) (iobus_bitmask st)
          (wire st ++ [e]) (iobus_reads st) (controlbus_reads st).

(** The C truth value of [v & pin]. *)
Definition pin_high (v pin : Z) : bool := negb (Z.land v pin =? 0).

(** The C truth value of [~v & pin] ([v] is promoted to [int] before [~]). *)
Definition pin_low (v pin : Z) : bool := negb (Z.land (Z.lnot v) pin =? 0).

(** [v |= pin] and [v &= (unsigned char)0xFF ^ pin] on an [unsigned char]. *)
Definition set_bits (v pin : Z) : Z := (Z.lor v pin) mod 256.
Definition clear_bits (v pin : Z) : Z := (Z.land v (Z.lxor 0xFF pin)) mod 256.

(** ** Control bus *)

Definition controlbus_reset_value (st : state) : state :=
  with_controlbus_value 0x00 st.

Definition controlbus_pin_set (pin : Z) (val : onoff_t) (st : state) : state :=
  match val with
  | ON => with_controlbus_value (set_bits (controlbus_value st) pin) st
  | OFF => with_controlbus_value (clear_bits (controlbus_value st) pin) st
  end.

Definition controlbus_update_output (st : state) : state :=
  emit (EvControlWrite (controlbus_value st)) st.

(** ** I/O bus *)

Definition iobus_set_direction (inout : iobus_inout_t) (st : state) : state :=
  match inout with
  | IOBUS_OUT => emit (EvIoBitmode IOBUS_BITMASK_WRITE)
                      (with_iobus_bitmask IOBUS_BITMASK_WRITE st)
  | IOBUS_IN => emit (EvIoBitmode IOBUS_BITMASK_READ)
                     (with_iobus_bitmask IOBUS_BITMASK_READ st)
  end.

Definition iobus_reset_value (st : state) : state :=
  with_iobus_value 0x00 st.

Definition iobus_pin_set (pin : Z) (val : onoff_t) (st : state) : state :=
  match val with
  | ON => with_iobus_value (set_bits (iobus_value st) pin) st
  | OFF => with_iobus_value (clear_bits (iobus_value st) pin) st
  end.

Definition iobus_set_value (value : Z) (st : state) : state :=
  with_iobus_value value st.

Definition iobus_update_output (st : state) : state :=
  emit (EvIoWrite (iobus_value st)) st.

(** ** The visual bus tests

    [test_controlbus] and [test_iobus] switch the pins on and off one at a
    time, with a flush after each change (the source passes the channel to
    [controlbus_update_output] and [iobus_update_output], which take no
    argument and ignore it). *)

Definition test_controlbus (st : state) : state :=
  let st := controlbus_pin_set PIN_CLE ON st in
  let st := controlbus_update_output st in
  let st := controlbus_pin_set PIN_ALE ON st in
  let st := controlbus_update_output st in
  let st := controlbus_pin_set PIN_nCE ON st in
  let st := controlbus_update_output st in
  let st := controlbus_pin_set PIN_nWE ON st in
  let st := controlbus_update_output st in
  let st := controlbus_pin_set PIN_nRE ON st in
  let st := controlbus_update_output st in
  let st := controlbus_pin_set PIN_nWP ON st in
  let st := controlbus_update_output st in
  let st := controlbus_pin_set PIN_LED ON st in
  let st := controlbus_update_output st in
  let st := controlbus_pin_set PIN_CLE OFF st in
  let st := controlbus_update_output st in
  let st := controlbus_pin_set PIN_ALE OFF st in
  let st := controlbus_update_output st in
  let st := controlbus_pin_set PIN_nCE OFF st in
  let st := controlbus_update_output st in
  let st := controlbus_pin_set PIN_nWE OFF st in
  let st := controlbus_update_output st in
  let st := controlbus_pin_set PIN_nRE OFF st in
  let st := controlbus_update_output st in
  let st := controlbus_pin_set PIN_nWP OFF st in
  let st := controlbus_update_output st in
  let st := controlbus_pin_set PIN_LED OFF st in
  controlbus_update_output st.

(* Pins on ADBUS0..7 (I/O bus) *)
Definition PIN_DIO0 : Z := 0x01.
Definition PIN_DIO1 : Z := 0x02.
Definition PIN_DIO2 : Z := 0x04.
Definition PIN_DIO3 : Z := 0x08.
Definition PIN_DIO4 : Z := 0x10.
Definition PIN_DIO5 : Z := 0x20.
Definition PIN_DIO6 : Z := 0x40.
Definition PIN_DIO7 : Z := 0x80.

Definition test_iobus (st : state) : state :=
  let st := iobus_pin_set PIN_DIO0 ON st in
  let st := iobus_update_output st in
  let st := iobus_pin_set PIN_DIO1 ON st in
  let st := iobus_update_output st in
  let st := iobus_pin_set PIN_DIO2 ON st in
  let st := iobus_update_output st in
  let st := iobus_pin_set PIN_DIO3 ON st in
  let st := iobus_update_output st in
  let st := iobus_pin_set PIN_DIO4 ON st in
  let st := iobus_update_output st in
  let st := iobus_pin_set PIN_DIO5 ON st in
  let st := iobus_update_output st in
  let st := iobus_pin_set PIN_DIO6 ON st in
  let st := iobus_update_output st in
  let st := iobus_pin_set PIN_DIO7 ON st in
  let st := iobus_update_output st in
  let st := iobus_pin_set PIN_DIO0 OFF st in
  let st := iobus_update_output st in
  let st := iobus_pin_set PIN_DIO1 OFF st in
  let st := iobus_update_output st in
  let st := iobus_pin_set PIN_DIO2 OFF st in
  let st := iobus_update_output st in
  let st := iobus_pin_set PIN_DIO3 OFF st in
  let st := iobus_update_output st in
  let st := iobus_pin_set PIN_DIO4 OFF st in
  let st := iobus_update_output st in
  let st := iobus_pin_set PIN_DIO5 OFF st in
  let st := iobus_update_output st in
  let st := iobus_pin_set PIN_DIO6 OFF st in
  let st := iobus_update_output st in
  let st := iobus_pin_set PIN_DIO7 OFF st in
  let st := iobus_update_output st in
  let st := iobus_set_value 0xFF st in
  let st := iobus_update_output st in
  let st := iobus_set_value 0xAA st in
  let st := iobus_update_output st in
  let st := iobus_set_value 0x55 st in
  let st := iobus_update_output st in
  let st := iobus_set_value 0x00 st in
  let st := iobus_update_output st in
  let st := iobus_pin_set PIN_DIO0 ON st in
  let st := iobus_pin_set PIN_DIO2 ON st in
  let st := iobus_pin_set PIN_DIO4 ON st in
  let st := iobus_pin_set PIN_DIO6 ON st in
  iobus_update_output st.

(** ** Address Cycle Map calculations *)

(** The source fills the caller's five-byte array; all five entries are
    written, so the result is that array. *)
Definition get_address_cycle_map_x8 (mem_address : Z) : list Z :=
  [ (Z.land mem_address 0x000000FF) mod 256;
    (Z.shiftr (Z.land mem_address 0x00000F00) 8) mod 256;
    (Z.shiftr (Z.land mem_address 0x000FF000) 12) mod 256;
    (Z.shiftr (Z.land mem_address 0x0FF00000) 20) mod 256;
    (Z.shiftr (Z.land mem_address 0x30000000) 28) mod 256 ].

(** ** The ID register check *)

(** [strncmp] of the C library on byte arrays: at most [n] characters are
    compared as [unsigned char], and the comparison stops after a NUL that
    both strings share.  A list that ends early reads as NUL; the callers
    below always pass five-byte arrays with [n = 5]. *)
Fixpoint strncmp (s1 s2 : list Z) (n : nat) : Z :=
  match n with
  | O => 0
  | S n' =>
      let c1 := hd 0 s1 in
      let c2 := hd 0 s2 in
      if c1 =? c2
      then if c1 =? 0 then 0 else strncmp (tl s1) (tl s2) n'
      else c1 - c2
  end.

Definition ID_register_exp : list Z := [0xAD; 0xDC; 0x10; 0x95; 0x54].

(** The result is the verdict line the function prints last. *)
Definition check_ID_register (ID_register : list Z) : string :=
  if strncmp ID_register_exp ID_register 5 =? 0
  then "PASS: ID register did match"%string
  else "FAIL: ID register did not match"%string.

(** ** The wire as the flash device sees it

    The datasheet excerpts quoted above [latch_command], [latch_address] and
    [latch_register] say when the device takes a byte: a command with Chip
    Enable low, Command Latch Enable high, Address Latch Enable low and Read
    Enable high, on the rising edge of Write Enable; an address byte likewise
    with the two latch enables exchanged; a data byte is shifted out by Read
    Enable going low, with Chip Enable low, Write Enable high and both latch
    enables low.  [bus_ops] reads a stretch of the wire by these rules. *)

Inductive bus_op : Set :=
| OpCommand (c : Z)      (* the device latches the command byte [c] *)
| OpAddress (a : Z)      (* the device latches the address byte [a] *)
| OpDataOut (d : Z)      (* the host samples [d] while the device drives the bus *)
| OpPoll (ready : bool). (* the host samples the control pins; the RDY level *)

(** What a write of [new] to the control pins makes the device do, when the
    pins were at [old] and the I/O bus carries [io]. *)
Definition control_edge (old new io : Z) : list bus_op :=
  if negb (pin_high new PIN_nCE) && pin_high new PIN_nRE
     && negb (pin_high old PIN_nWE) && pin_high new PIN_nWE
  then
    if pin_high new PIN_CLE && negb (pin_high new PIN_ALE) then [OpCommand io]
    else if pin_high new PIN_ALE && negb (pin_high new PIN_CLE) then [OpAddress io]
    else []
  else [].

(** Whether the device drives the I/O bus at control pin levels [ctrl]. *)
Definition data_out_enabled (ctrl : Z) : bool :=
  negb (pin_high ctrl PIN_nCE) && negb (pin_high ctrl PIN_nRE)
  && pin_high ctrl PIN_nWE
  && negb (pin_high ctrl PIN_CLE) && negb (pin_high ctrl PIN_ALE).

(** [ctrl] and [io] are the levels on the control pins and on the I/O bus
    before the first event of [evs]. *)
Fixpoint bus_ops (ctrl io : Z) (evs : list event) : list bus_op :=
  match evs with
  | [] => []
  | EvControlWrite c :: evs' => control_edge ctrl c io ++ bus_ops c io evs'
  | EvIoWrite b :: evs' => bus_ops ctrl b evs'
  | EvIoBitmode _ :: evs' => bus_ops ctrl io evs'
  | EvIoRead b :: evs' =>
      (if data_out_enabled ctrl then [OpDataOut b] else []) ++ bus_ops ctrl io evs'
  | EvControlRead b :: evs' => OpPoll (pin_high b PIN_RDY) :: bus_ops ctrl io evs'
  end.

(** The levels the adapter drives on the control pins after the
    transactions [evs], when it drove [ctrl] before them: the byte of the
    last control write. *)
Fixpoint control_pins_driven (ctrl : Z) (evs : list event) : Z :=
  match evs with
  | [] => ctrl
  | EvControlWrite c :: evs' => control_pins_driven c evs'
  | _ :: evs' => control_pins_driven ctrl evs'
  end.

(** Likewise the byte the adapter holds on the I/O bus. *)
Fixpoint io_pins_driven (io : Z) (evs : list event) : Z :=
  match evs with
  | [] => io
  | EvIoWrite b :: evs' => io_pins_driven b evs'
  | _ :: evs' => io_pins_driven io evs'
  end.

(** The bytes [v] and [c] agree on the bits of the mask [m]. *)
Definition agree_on (m v c : Z) : Prop := Z.land c m = Z.land v m.

(** Every control byte written in [evs] satisfies [P]. *)
Definition control_writes (P : Z -> Prop) (evs : list event) : Prop :=
  Forall (fun e => match e with EvControlWrite c => P c | _ => True end) evs.

(** Every transaction of [evs] is a write to the control pins or to the I/O
    bus: nothing is sampled and no direction is changed. *)
Definition writes_only (evs : list event) : Prop :=
  Forall (fun e => match e with
                   | EvControlWrite _ | EvIoWrite _ => True
                   | _ => False
                   end) evs.

(** No transaction of [evs] writes a byte to the I/O bus. *)
Definition no_io_write (evs : list event) : Prop :=
  Forall (fun e => match e with EvIoWrite _ => False | _ => True end) evs.


(** The sample of the n-th read as the adapter hands it over. *)
Definition sample (pins : nat -> Z) (n : nat) : Z := pins n mod 256.

(** The samples of the [n] reads from the [k]-th on. *)
Definition samples (pins : nat -> Z) (k n : nat) : list Z :=
  map (sample pins) (seq k n).

(** ** The latch sequences as the specification lists them

    Section 4.4 of the specification gives each primitive as a sequence of pin
    changes, each followed by a flush.  These are the adapter transactions
    of those sequences, for a control byte [v] held before the first step;
    the latch operations above are compared with them below. *)

(** set CLE high, flush; set nWE low, flush; write opcode, flush; set nWE
    high, flush; set CLE low, flush. *)
Definition command_wire (v opcode : Z) : list event :=
  let v1 := set_bits v PIN_CLE in
  let v2 := clear_bits v1 PIN_nWE in
  let v3 := set_bits v2 PIN_nWE in
  let v4 := clear_bits v3 PIN_CLE in
  [EvControlWrite v1; EvControlWrite v2; EvIoWrite opcode;
   EvControlWrite v3; EvControlWrite v4].

(** set ALE high, flush; for each byte in order: set nWE low, flush; write
    byte, flush; set nWE high, flush; after all bytes: set ALE low, flush. *)
Definition address_wire (v : Z) (bytes : list Z) : list event :=
  let v1 := set_bits v PIN_ALE in
  let lo := clear_bits v1 PIN_nWE in
  let hi := set_bits lo PIN_nWE in
  [EvControlWrite v1]
  ++ flat_map (fun a => [EvControlWrite lo; EvIoWrite a; EvControlWrite hi]) bytes
  ++ [EvControlWrite (clear_bits (match bytes with [] => v1 | _ => hi end) PIN_ALE)].

(** switch data bus to input; for each sampled byte: set nRE low, flush;
    sample; set nRE high, flush; after all bytes: restore output. *)
Definition data_out_wire (v : Z) (bytes : list Z) : list event :=
  let lo := clear_bits v PIN_nRE in
  let hi := set_bits lo PIN_nRE in
  [EvIoBitmode IOBUS_BITMASK_READ]
  ++ flat_map (fun d => [EvControlWrite lo; EvIoRead d; EvControlWrite hi]) bytes
  ++ [EvIoBitmode IOBUS_BITMASK_WRITE].

(** The reads of a busy wait that sees the samples [bytes]. *)
Definition poll_wire (bytes : list Z) : list event := map EvControlRead bytes.

(** Control pin levels at which a command can be given: Chip Enable low,
    Read Enable high, Address Latch Enable low. *)
Definition chip_selected (v : Z) : Prop :=
  pin_high v PIN_nCE = false /\ pin_high v PIN_nRE = true
  /\ pin_high v PIN_ALE = false.

(** The levels between two bus operations: as [chip_selected], with Command
    Latch Enable low and Write Enable high. *)
Definition bus_idle (v : Z) : Prop :=
  chip_selected v /\ pin_high v PIN_CLE = false /\ pin_high v PIN_nWE = true.

(** A busy wait that starts with the [k]-th read of the control pins sees
    RDY low in [n] samples and high in the next one. *)
Definition ready_at (pins : nat -> Z) (k n : nat) : Prop :=
  (forall j, (j < n)%nat -> pin_high (sample pins (k + j)) PIN_RDY = false)
  /\ pin_high (sample pins (k + n)) PIN_RDY = true.

(** [st'] is reached from [st] by the adapter transactions [evs], every pin
    change and every byte written being flushed by the end of them: the wire
    has grown by [evs], and the two held bytes are the ones the adapter
    drives. *)
Definition flushed_run (st st' : state) (evs : list event) : Prop :=
  wire st' = wire st ++ evs
  /\ controlbus_value st' = control_pins_driven (controlbus_value st) evs
  /\ iobus_value st' = io_pins_driven (iobus_value st) evs.

(** The first [n] entries of [address], reading 0 past its end. *)
Definition address_bytes (address : list Z) (n : nat) : list Z :=
  map (fun i => nth i address 0) (seq 0 n).

(** What the device reads in one page read at the linear address
    [mem_address]: the first Page-Read byte, the five address cycles, the
    second Page-Read byte, [n] polls that show busy and one that shows ready,
    and the bytes of [page] latched out. *)
Definition page_ops (mem_address : Z) (n : nat) (page : list Z) : list bus_op :=
  [OpCommand 0x00] ++ map OpAddress (get_address_cycle_map_x8 mem_address)
  ++ [OpCommand 0x30] ++ repeat (OpPoll false) n ++ [OpPoll true]
  ++ map OpDataOut page.

(** ** Simulated devices

    Pin answers used to run the operations on concrete inputs. *)

(** A control channel that reports busy for the first [busy] reads and ready
    (RDY high, nothing else) from then on. *)
Definition ready_after (busy : nat) (n : nat) : Z :=
  if (n <? busy)%nat then 0x00 else PIN_RDY.

(** A control channel whose RDY line never rises. *)
Definition never_ready (n : nat) : Z := 0x00.

(** An I/O channel that answers the bytes of [l] in turn and then [d]. *)
Definition replay (l : list Z) (d : Z) (n : nat) : Z := nth n l d.

(** The state before [main] sets the buses up: both globals are zero and
    the I/O channel has just been put in bit-bang mode with all pins as
    outputs. *)
Definition session_start : state :=
  mkState 0x00 0x00 IOBUS_BITMASK_WRITE [] 0 0.

Section Device.

(** What the I/O pins and the control pins answer to their n-th read. *)
Variable iobus_pins : nat -> Z.
Variable controlbus_pins : nat -> Z.

Definition iobus_read_input (st : state) : Z * state :=
  let buf := iobus_pins (iobus_reads st) mod 256 in
  (buf,
   mkState (iobus_value st) (controlbus_value st) (iobus_bitmask st)
           (wire st ++ [EvIoRead buf])
           (S (iobus_reads st)) (controlbus_reads st)).

Definition controlbus_read_input (st : state) : Z * state :=
  let buf := controlbus_pins (controlbus_reads st) mod 256 in
  (buf,
   mkState (iobus_value st) (controlbus_value st) (iobus_bitmask st)
           (wire st ++ [EvControlRead buf])
           (iobus_reads st) (S (controlbus_reads st))).

(** ** Command Input bus operation *)

Definition latch_command (command : Z) (st : state) : Z * state :=
  if pin_high (controlbus_value st) PIN_nCE then (EXIT_FAILURE, st)
  else if pin_low (controlbus_value st) PIN_nRE then (EXIT_FAILURE, st)
  else
    (* toggle CLE high *)
    let st := controlbus_pin_set PIN_CLE ON st in
    let st := controlbus_update_output st in
    (* toggle nWE low *)
    let st := controlbus_pin_set PIN_nWE OFF st in
    let st := controlbus_update_output st in
    (* change I/O pins *)
    let st := iobus_set_value command st in
    let st := iobus_update_output st in
    (* toggle nWE back high (acts as clock to latch the command!) *)
    let st := controlbus_pin_set PIN_nWE ON st in
    let st := controlbus_update_output st in
    (* toggle CLE low *)
    let st := controlbus_pin_set PIN_CLE OFF st in
    let st := controlbus_update_output st in
    (0, st).

(** ** Address Input bus operation *)

(** One pass through the [for] body of [latch_address] for the byte [a]. *)
Definition latch_address_cycle (a : Z) (st : state) : state :=
  (* toggle nWE low *)
  let st := controlbus_pin_set PIN_nWE OFF st in
  let st := controlbus_update_output st in
  (* change I/O pins *)
  let st := iobus_set_value a st in
  let st := iobus_update_output st in
  (* toggle nWE back high (acts as clock to latch the current address byte!) *)
  let st := controlbus_pin_set PIN_nWE ON st in
  controlbus_update_output st.

(** The [for] loop with [n] passes left, the next one for [addr_idx].  An
    index past the end of [address] is undefined in C and reads as 0 here;
    every caller passes an array of at least [addr_length] bytes. *)
Fixpoint latch_address_loop (address : list Z) (addr_idx n : nat) (st : state) : state :=
  match n with
  | O => st
  | S n' =>
      latch_address_loop address (S addr_idx) n'
        (latch_address_cycle (nth addr_idx address 0) st)
  end.

Definition latch_address (address : list Z) (addr_length : nat) (st : state) : Z * state :=
  if pin_high (controlbus_value st) PIN_nCE then (EXIT_FAILURE, st)
  else if pin_high (controlbus_value st) PIN_CLE then (EXIT_FAILURE, st)
  else if pin_low (controlbus_value st) PIN_nRE then (EXIT_FAILURE, st)
  else
    (* toggle ALE high *)
    let st := controlbus_pin_set PIN_ALE ON st in
    let st := controlbus_update_output st in
    let st := latch_address_loop address 0 addr_length st in
    (* toggle ALE low *)
    let st := controlbus_pin_set PIN_ALE OFF st in
    let st := controlbus_update_output st in
    (0, st).

(** ** Data Output bus operation *)

(** One pass through the [for] body of [latch_register]: [reg[addr_idx]] is
    overwritten with the sampled byte.  A write past the end of [reg] is
    undefined in C and leaves the list as it is here; every caller passes an
    array of at least [reg_length] bytes. *)
Definition latch_register_cycle (addr_idx : nat) (reg : list Z) (st : state)
  : list Z * state :=
  (* toggle nRE low; acts like a clock to latch out the data *)
  let st := controlbus_pin_set PIN_nRE OFF st in
  let st := controlbus_update_output st in
  (* read I/O pins *)
  let '(b, st) := iobus_read_input st in
  let reg := <[addr_idx := b]> reg in
  (* toggle nRE back high *)
  let st := controlbus_pin_set PIN_nRE ON st in
  let st := controlbus_update_output st in
  (reg, st).

Fixpoint latch_register_loop (addr_idx n : nat) (reg : list Z) (st : state)
  : list Z * state :=
  match n with
  | O => (reg, st)
  | S n' =>
      let '(reg, st) := latch_register_cycle addr_idx reg st in
      latch_register_loop (S addr_idx) n' reg st
  end.

(** The result carries the array [reg] as the call leaves it. *)
Definition latch_register (reg : list Z) (reg_length : nat) (st : state)
  : Z * list Z * state :=
  if pin_high (controlbus_value st) PIN_nCE then (EXIT_FAILURE, reg, st)
  else if pin_low (controlbus_value st) PIN_nWE then (EXIT_FAILURE, reg, st)
  else if pin_high (controlbus_value st) PIN_ALE then (EXIT_FAILURE, reg, st)
  else
    let st := iobus_set_direction IOBUS_IN st in
    let '(reg, st) := latch_register_loop 0 reg_length reg st in
    let st := iobus_set_direction IOBUS_OUT st in
    (0, reg, st).

(** ** Busy wait

    The loop
    [do { controlbus_val = controlbus_read_input(); } while( !(controlbus_val & PIN_RDY) );]
    that [dump_memory] and [erase_block] both contain.  [fuel] bounds the
    number of passes the model follows; [None] means the loop is still
    running after [fuel] passes. *)
Fixpoint wait_busy (fuel : nat) (st : state) : option state :=
  match fuel with
  | O => None
  | S fuel' =>
      let '(controlbus_val, st) := controlbus_read_input st in
      if pin_high controlbus_val PIN_RDY then Some st
      else wait_busy fuel' st
  end.

(** ** Reading a page: one pass through the [for] body of [dump_memory]

    [mem_large_block] is the page array as the previous pass left it (it is
    not initialised before the first one).  The result is the array after
    [latch_register], which the source then hands to [fwrite]. *)
Definition dump_memory_page (fuel : nat) (mem_address : Z)
    (mem_large_block : list Z) (st : state) : option (list Z * state) :=
  let addr_cylces := get_address_cycle_map_x8 mem_address in
  (* first command byte to read a page *)
  let '(_, st) := latch_command (nth 0 CMD_READ1 0) st in
  (* address cycles *)
  let '(_, st) := latch_address addr_cylces 5 st in
  (* second command byte to read a page *)
  let '(_, st) := latch_command (nth 1 CMD_READ1 0) st in
  (* busy-wait for high level at the busy line *)
  match wait_busy fuel st with
  | None => None
  | Some st =>
      (* latching out data block *)
      let '(_, mem_large_block, st) := latch_register mem_large_block 2112 st in
      Some (mem_large_block, st)
  end.

(** The [for] loop of [dump_memory] with [pages] passes left: each page is
    appended to the dump file and [mem_address] advances by 2112 with the
    wrap-around of [uint32_t].  [file] is what has been written to
    [flashdump.bin] so far; the file is taken to have opened. *)
Fixpoint dump_memory_loop (fuel : nat) (pages : nat) (mem_address : Z)
    (mem_large_block : list Z) (file : list Z) (st : state)
  : option (list Z * state) :=
  match pages with
  | O => Some (file, st)
  | S pages' =>
      match dump_memory_page fuel mem_address mem_large_block st with
      | None => None
      | Some (mem_large_block, st) =>
          dump_memory_loop fuel pages' ((mem_address + 2112) mod 2 ^ 32)
            mem_large_block (file ++ take 2112 mem_large_block) st
      end
  end.

Definition dump_memory (fuel : nat) (mem_large_block : list Z) (st : state)
  : option (list Z * state) :=
  dump_memory_loop fuel (64 * 4096) 0x00000000 mem_large_block [] st.

(** ** BlockErase

    [status_register] is the value the uninitialised local of that name
    holds before [latch_register] is called. *)
Definition erase_block (fuel : nat) (nBlockId : Z) (status_register : Z)
    (st : state) : option (Z * state) :=
  (* calculate memory address *)
  let mem_address := (2048 * 64 * nBlockId) mod 2 ^ 32 in
  (* remove write protection *)
  let st := controlbus_pin_set PIN_nWP ON st in
  (* block erase setup command *)
  let '(_, st) := latch_command (nth 0 CMD_BLOCKERASE 0) st in
  let addr_cylces := get_address_cycle_map_x8 mem_address in
  (* page(row) address (3 bytes) *)
  let address := [nth 2 addr_cylces 0; nth 3 addr_cylces 0; nth 4 addr_cylces 0] in
  let '(_, st) := latch_address address 3 st in
  (* second command byte to erase a block *)
  let '(_, st) := latch_command (nth 1 CMD_BLOCKERASE 0) st in
  (* busy-wait for high level at the busy line *)
  match wait_busy fuel st with
  | None => None
  | Some st =>
      (* read status *)
      let '(_, st) := latch_command CMD_READSTATUS st in
      let '(_, reg, st) := latch_register [status_register] 1 st in
      let status_register := nth 0 reg 0 in
      (* activate write protection again *)
      let st := controlbus_pin_set PIN_nWP OFF st in
      if pin_high status_register STATUSREG_IO0 then Some (1, st)
      else Some (0, st)
  end.

(** ** The bus set-up and the ID read of [main] *)

(** Lines from [controlbus_reset_value()] to the [controlbus_update_output()]
    that sets nRE high and nCE and nWP low. *)
Definition main_bus_setup (st : state) : state :=
  let st := controlbus_reset_value st in
  let st := controlbus_update_output st in
  let st := iobus_set_direction IOBUS_OUT st in
  let st := iobus_reset_value st in
  let st := iobus_update_output st in
  (* testing I/O and control bus for input read *)
  let st := iobus_set_direction IOBUS_IN st in
  let '(_, st) := iobus_read_input st in
  let '(_, st) := controlbus_read_input st in
  let st := iobus_set_direction IOBUS_OUT st in
  (* set nRE high and nCE and nWP low *)
  let st := controlbus_pin_set PIN_nRE ON st in
  let st := controlbus_pin_set PIN_nCE OFF st in
  let st := controlbus_pin_set PIN_nWP OFF st in
  controlbus_update_output st.

(** The block "Read the ID register" of [main]; [ID_register] is the
    uninitialised local array.  The result is the array after
    [latch_register] and the verdict of [check_ID_register]. *)
Definition main_read_ID (ID_register : list Z) (st : state)
  : list Z * string * state :=
  let '(_, st) := latch_command CMD_READID st in
  let address := [0x00] in
  let '(_, st) := latch_address address 1 st in
  let '(_, ID_register, st) := latch_register ID_register 5 st in
  (ID_register, check_ID_register ID_register, st).

(** The bus part of [main], from [controlbus_reset_value()] to the
    [controlbus_pin_set(PIN_nCE, ON)] after the dump; opening the two
    channels before and closing them afterwards is libftdi's.  The result is
    the value [main] returns, the verdict line of the ID check and the
    content of the dump file. *)
Definition main_bus_session (fuel : nat) (ID_register mem_large_block : list Z)
    (st : state) : option (Z * string * list Z * state) :=
  let st := main_bus_setup st in
  (* Read the ID register *)
  let '(_, verdict, st) := main_read_ID ID_register st in
  match dump_memory fuel mem_large_block st with
  | None => None
  | Some (file, st) =>
      (* set nCE high *)
      let st := controlbus_pin_set PIN_nCE ON st in
      Some (0, verdict, file, st)
  end.

(** * Properties *)

(** ** Bits of a control byte *)

Lemma land_pow2 (v k : Z) :
  0 <= k -> Z.land v (2 ^ k) = if Z.testbit v k then 2 ^ k else 0.
Proof.
  intros Hk. apply Z.bits_inj'. intros i Hi.
  rewrite Z.land_spec, Z.pow2_bits_eqb by lia.
  destruct (Z.eqb_spec k i) as [->|Hne].
  - destruct (Z.testbit v i); simpl.
    + rewrite Z.pow2_bits_true; lia || reflexivity.
    + rewrite Z.bits_0. reflexivity.
  - rewrite andb_false_r. destruct (Z.testbit v k).
    + rewrite Z.pow2_bits_false; lia || reflexivity.
    + rewrite Z.bits_0. reflexivity.
Qed.

Lemma pin_high_pow2 (v k : Z) : 0 <= k -> pin_high v (2 ^ k) = Z.testbit v k.
Proof.
  intros Hk. unfold pin_high. rewrite land_pow2 by lia.
  assert (0 < 2 ^ k) by (apply Z.pow_pos_nonneg; lia).
  destruct (Z.testbit v k); simpl.
  - destruct (Z.eqb_spec (2 ^ k) 0); [lia | reflexivity].
  - reflexivity.
Qed.

Lemma pin_low_pow2 (v k : Z) : 0 <= k -> pin_low v (2 ^ k) = negb (Z.testbit v k).
Proof.
  intros Hk. unfold pin_low. fold (pin_high (Z.lnot v) (2 ^ k)).
  rewrite pin_high_pow2, Z.lnot_spec by lia. reflexivity.
Qed.

(** On a single pin, [~v & pin] is the negation of [v & pin]. *)
Lemma pin_low_high (v k : Z) :
  0 <= k -> pin_low v (2 ^ k) = negb (pin_high v (2 ^ k)).
Proof. intros Hk. rewrite pin_low_pow2, pin_high_pow2 by lia. reflexivity. Qed.

Lemma pin_high_CLE v : pin_high v PIN_CLE = Z.testbit v 0.
Proof. apply (pin_high_pow2 v 0). lia. Qed.
Lemma pin_high_ALE v : pin_high v PIN_ALE = Z.testbit v 1.
Proof. apply (pin_high_pow2 v 1). lia. Qed.
Lemma pin_high_nCE v : pin_high v PIN_nCE = Z.testbit v 2.
Proof. apply (pin_high_pow2 v 2). lia. Qed.
Lemma pin_high_nWE v : pin_high v PIN_nWE = Z.testbit v 3.
Proof. apply (pin_high_pow2 v 3). lia. Qed.
Lemma pin_high_nRE v : pin_high v PIN_nRE = Z.testbit v 4.
Proof. apply (pin_high_pow2 v 4). lia. Qed.
Lemma pin_high_nWP v : pin_high v PIN_nWP = Z.testbit v 5.
Proof. apply (pin_high_pow2 v 5). lia. Qed.
Lemma pin_high_RDY v : pin_high v PIN_RDY = Z.testbit v 6.
Proof. apply (pin_high_pow2 v 6). lia. Qed.
Lemma pin_low_nWE v : pin_low v PIN_nWE = negb (Z.testbit v 3).
Proof. apply (pin_low_pow2 v 3). lia. Qed.
Lemma pin_low_nRE v : pin_low v PIN_nRE = negb (Z.testbit v 4).
Proof. apply (pin_low_pow2 v 4). lia. Qed.

Lemma set_bits_range v p : 0 <= set_bits v p < 256.
Proof. unfold set_bits. apply Z.mod_pos_bound. lia. Qed.

Lemma clear_bits_range v p : 0 <= clear_bits v p < 256.
Proof. unfold clear_bits. apply Z.mod_pos_bound. lia. Qed.

Lemma byte_testbit_high v i : 0 <= v < 256 -> 8 <= i -> Z.testbit v i = false.
Proof.
  intros Hv Hi.
  rewrite <- (Z.mod_small v (2 ^ 8)) by (change (2 ^ 8) with 256; lia).
  apply Z.mod_pow2_bits_high. lia.
Qed.

Lemma set_bits_testbit v p i :
  0 <= i < 8 -> Z.testbit (set_bits v p) i = Z.testbit v i || Z.testbit p i.
Proof.
  intros Hi. unfold set_bits. change 256 with (2 ^ 8).
  rewrite Z.mod_pow2_bits_low, Z.lor_spec by lia. reflexivity.
Qed.

Lemma clear_bits_testbit v p i :
  0 <= i < 8 ->
  Z.testbit (clear_bits v p) i = Z.testbit v i && negb (Z.testbit p i).
Proof.
  intros Hi. unfold clear_bits. change 256 with (2 ^ 8).
  rewrite Z.mod_pow2_bits_low, Z.land_spec, Z.lxor_spec by lia.
  change 255 with (Z.ones 8). rewrite Z.ones_spec_low by lia. reflexivity.
Qed.

(** Two bytes with the same eight bits are equal. *)
Lemma byte_ext a b :
  0 <= a < 256 -> 0 <= b < 256 ->
  (forall i, 0 <= i < 8 -> Z.testbit a i = Z.testbit b i) -> a = b.
Proof.
  intros Ha Hb H. apply Z.bits_inj'. intros i Hi.
  destruct (Z.lt_ge_cases i 8).
  - apply H. lia.
  - rewrite !byte_testbit_high by lia. reflexivity.
Qed.

Lemma set_bits_idem v p : set_bits (set_bits v p) p = set_bits v p.
Proof.
  apply byte_ext; try apply set_bits_range. intros i Hi.
  rewrite !set_bits_testbit by lia.
  destruct (Z.testbit v i), (Z.testbit p i); reflexivity.
Qed.

Lemma clear_bits_idem v p : clear_bits (clear_bits v p) p = clear_bits v p.
Proof.
  apply byte_ext; try apply clear_bits_range. intros i Hi.
  rewrite !clear_bits_testbit by lia.
  destruct (Z.testbit v i), (Z.testbit p i); reflexivity.
Qed.

Lemma clear_set_bits v p : clear_bits (set_bits v p) p = clear_bits v p.
Proof.
  apply byte_ext; try apply clear_bits_range. intros i Hi.
  rewrite !clear_bits_testbit, set_bits_testbit by lia.
  destruct (Z.testbit v i), (Z.testbit p i); reflexivity.
Qed.

Lemma set_clear_bits v p : set_bits (clear_bits v p) p = set_bits v p.
Proof.
  apply byte_ext; try apply set_bits_range. intros i Hi.
  rewrite !set_bits_testbit, clear_bits_testbit by lia.
  destruct (Z.testbit v i), (Z.testbit p i); reflexivity.
Qed.

(** Rewrites every pin test of the goal into bits of the bytes the control
    byte was built from, and evaluates the bits of the pin constants. *)
Ltac pin_bits :=
  rewrite ?pin_high_CLE, ?pin_high_ALE, ?pin_high_nCE, ?pin_high_nWE,
    ?pin_high_nRE, ?pin_high_nWP, ?pin_high_RDY, ?pin_low_nWE, ?pin_low_nRE;
  repeat (rewrite ?set_bits_testbit, ?clear_bits_testbit by lia);
  repeat match goal with
    | |- context [Z.testbit ?p ?k] =>
        first [ is_const p | fail 1 ];
        let b := eval vm_compute in (Z.testbit p k) in
        change (Z.testbit p k) with b
    end;
  rewrite ?orb_false_r, ?orb_true_r, ?andb_true_r, ?andb_false_r.

(** Runs the straight-line bus code of the goal on a state whose fields are
    known. *)
Ltac run_bus :=
  cbv beta iota zeta delta
    [controlbus_pin_set controlbus_update_output controlbus_reset_value
     iobus_set_value iobus_update_output iobus_set_direction iobus_reset_value
     iobus_pin_set iobus_read_input controlbus_read_input
     emit with_controlbus_value with_iobus_value with_iobus_bitmask
     iobus_value controlbus_value iobus_bitmask wire iobus_reads
     controlbus_reads].

(** ** The address cycle map *)

Lemma byte_of_masked x n :
  0 <= n <= 8 -> Z.land x (Z.ones n) mod 256 = Z.land x (Z.ones n).
Proof.
  intros Hn. rewrite Z.land_ones by lia. apply Z.mod_small.
  pose proof (Z.mod_pos_bound x (2 ^ n) ltac:(apply Z.pow_pos_nonneg; lia)).
  assert (2 ^ n <= 2 ^ 8) by (apply Z.pow_le_mono_r; lia).
  change (2 ^ 8) with 256 in *. lia.
Qed.

(** C1: the five address cycles are the bit fields [a & 0xFF],
    [(a >> 8) & 0x0F], [(a >> 12) & 0xFF], [(a >> 20) & 0xFF] and
    [(a >> 28) & 0x03] of the linear address, for every address; address 0
    maps to five zero bytes and address 0x10000000 to [0;0;0;0;1].  The map
    is a function of the address alone: it takes no state and returns none. *)
Theorem get_address_cycle_map_x8_cycles (mem_address : Z) :
  get_address_cycle_map_x8 mem_address
  = [ Z.land mem_address 0xFF;
      Z.land (Z.shiftr mem_address 8) 0x0F;
      Z.land (Z.shiftr mem_address 12) 0xFF;
      Z.land (Z.shiftr mem_address 20) 0xFF;
      Z.land (Z.shiftr mem_address 28) 0x03 ]
  /\ get_address_cycle_map_x8 0x00000000 = [0x00; 0x00; 0x00; 0x00; 0x00]
  /\ get_address_cycle_map_x8 0x10000000 = [0x00; 0x00; 0x00; 0x00; 0x01].
Proof.
  split; [|split; reflexivity].
  unfold get_address_cycle_map_x8. rewrite !Z.shiftr_land.
  change (Z.shiftr 3840 8) with (Z.ones 4).
  change (Z.shiftr 1044480 12) with (Z.ones 8).
  change (Z.shiftr 267386880 20) with (Z.ones 8).
  change (Z.shiftr 805306368 28) with (Z.ones 2).
  change 255 with (Z.ones 8). change 15 with (Z.ones 4).
  change 3 with (Z.ones 2).
  rewrite !byte_of_masked by lia. reflexivity.
Qed.

(** ** Pin set and clear *)

Lemma set_bits_spec v p i :
  0 <= v < 256 -> 0 <= p < 256 -> 0 <= i ->
  Z.testbit (set_bits v p) i = if Z.testbit p i then true else Z.testbit v i.
Proof.
  intros Hv Hp Hi. destruct (Z.lt_ge_cases i 8).
  - rewrite set_bits_testbit by lia.
    destruct (Z.testbit v i), (Z.testbit p i); reflexivity.
  - rewrite !byte_testbit_high by (lia || apply set_bits_range). reflexivity.
Qed.

Lemma clear_bits_spec v p i :
  0 <= v < 256 -> 0 <= p < 256 -> 0 <= i ->
  Z.testbit (clear_bits v p) i = if Z.testbit p i then false else Z.testbit v i.
Proof.
  intros Hv Hp Hi. destruct (Z.lt_ge_cases i 8).
  - rewrite clear_bits_testbit by lia.
    destruct (Z.testbit v i), (Z.testbit p i); reflexivity.
  - rewrite !byte_testbit_high by (lia || apply clear_bits_range). reflexivity.
Qed.

(** C10: [controlbus_pin_set] and [iobus_pin_set] change the bits of the
    pin mask in their own held byte, to 1 for ON and to 0 for OFF, and no
    other bit; a second identical call changes nothing; neither touches the
    other byte, the direction, the wire (nothing is flushed) or the read
    counts. *)
Theorem pin_set_frame (pin : Z) (val : onoff_t) (st : state) :
  0 <= pin < 256 ->
  0 <= controlbus_value st < 256 ->
  0 <= iobus_value st < 256 ->
  let level := match val with ON => true | OFF => false end in
  let c := controlbus_pin_set pin val st in
  let d := iobus_pin_set pin val st in
  (forall i, 0 <= i ->
     Z.testbit (controlbus_value c) i
     = if Z.testbit pin i then level else Z.testbit (controlbus_value st) i)
  /\ (forall i, 0 <= i ->
        Z.testbit (iobus_value d) i
        = if Z.testbit pin i then level else Z.testbit (iobus_value st) i)
  /\ controlbus_pin_set pin val c = c
  /\ iobus_pin_set pin val d = d
  /\ c = with_controlbus_value (controlbus_value c) st
  /\ d = with_iobus_value (iobus_value d) st
  /\ wire c = wire st /\ wire d = wire st.
Proof.
  intros Hp Hc Hd level c d. subst level c d.
  destruct st as [io cv bm w ir cr]. cbn [controlbus_value iobus_value] in *.
  destruct val; run_bus.
  - repeat split; try reflexivity.
    + intros i Hi. apply clear_bits_spec; assumption.
    + intros i Hi. apply clear_bits_spec; assumption.
    + rewrite clear_bits_idem. reflexivity.
    + rewrite clear_bits_idem. reflexivity.
  - repeat split; try reflexivity.
    + intros i Hi. apply set_bits_spec; assumption.
    + intros i Hi. apply set_bits_spec; assumption.
    + rewrite set_bits_idem. reflexivity.
    + rewrite set_bits_idem. reflexivity.
Qed.

(** ** Precondition violations *)

(** C4: with nCE high or nRE low in the held control byte, [latch_command]
    returns the non-zero [EXIT_FAILURE] and leaves the whole state as it
    was: the held data-bus byte, the data-bus direction, the control byte,
    and the wire, to which no transaction is added. *)
Theorem latch_command_precondition_violation (command : Z) (st : state) :
  pin_high (controlbus_value st) PIN_nCE = true
  \/ pin_high (controlbus_value st) PIN_nRE = false ->
  latch_command command st = (EXIT_FAILURE, st) /\ EXIT_FAILURE <> 0.
Proof.
  intros H. split; [|discriminate]. unfold latch_command.
  destruct (pin_high (controlbus_value st) PIN_nCE) eqn:Hce; [reflexivity|].
  destruct H as [H|H]; [discriminate H|].
  change PIN_nRE with (2 ^ 4) in *. rewrite pin_low_high, H by lia.
  reflexivity.
Qed.

(** X2: with nCE high, CLE high or nRE low in the held control byte,
    [latch_address] returns [EXIT_FAILURE] and leaves the whole state as it
    was; no address byte reaches the wire. *)
Theorem latch_address_precondition_violation address addr_length (st : state) :
  pin_high (controlbus_value st) PIN_nCE = true
  \/ pin_high (controlbus_value st) PIN_CLE = true
  \/ pin_high (controlbus_value st) PIN_nRE = false ->
  latch_address address addr_length st = (EXIT_FAILURE, st)
  /\ EXIT_FAILURE <> 0.
Proof.
  intros H. split; [|discriminate]. unfold latch_address.
  destruct (pin_high (controlbus_value st) PIN_nCE) eqn:Hce; [reflexivity|].
  destruct (pin_high (controlbus_value st) PIN_CLE) eqn:Hcle; [reflexivity|].
  destruct H as [H|[H|H]]; try discriminate H.
  change PIN_nRE with (2 ^ 4) in *. rewrite pin_low_high, H by lia.
  reflexivity.
Qed.

(** X3: with nCE high, nWE low or ALE high in the held control byte,
    [latch_register] returns [EXIT_FAILURE] and leaves the array and the
    whole state as they were: the direction of the I/O channel is not
    changed and nothing is sampled. *)
Theorem latch_register_precondition_violation reg reg_length (st : state) :
  pin_high (controlbus_value st) PIN_nCE = true
  \/ pin_high (controlbus_value st) PIN_nWE = false
  \/ pin_high (controlbus_value st) PIN_ALE = true ->
  latch_register reg reg_length st = (EXIT_FAILURE, reg, st)
  /\ EXIT_FAILURE <> 0.
Proof.
  intros H. split; [|discriminate]. unfold latch_register.
  destruct (pin_high (controlbus_value st) PIN_nCE) eqn:Hce; [reflexivity|].
  change PIN_nWE with (2 ^ 3) in *. rewrite pin_low_high by lia.
  destruct (pin_high (controlbus_value st) (2 ^ 3)) eqn:Hwe; cbn [negb];
    [|reflexivity].
  destruct H as [H|[H|H]]; try discriminate H.
  rewrite H. reflexivity.
Qed.

(** ** What the adapter drives after a stretch of wire *)

Lemma control_pins_driven_app h l1 l2 :
  control_pins_driven h (l1 ++ l2)
  = control_pins_driven (control_pins_driven h l1) l2.
Proof.
  revert h. induction l1 as [|e l1 IH]; intros h; [reflexivity|].
  destruct e; simpl; apply IH.
Qed.

Lemma io_pins_driven_app io l1 l2 :
  io_pins_driven io (l1 ++ l2) = io_pins_driven (io_pins_driven io l1) l2.
Proof.
  revert io. induction l1 as [|e l1 IH]; intros io; [reflexivity|].
  destruct e; simpl; apply IH.
Qed.

Lemma bus_ops_app h io l1 l2 :
  bus_ops h io (l1 ++ l2)
  = bus_ops h io l1
    ++ bus_ops (control_pins_driven h l1) (io_pins_driven io l1) l2.
Proof.
  revert h io. induction l1 as [|e l1 IH]; intros h io; [reflexivity|].
  destruct e; simpl; rewrite IH, ?app_assoc; reflexivity.
Qed.

(** ** The latch operations carry out the sequences of the specification *)

Lemma latch_command_runs command st :
  pin_high (controlbus_value st) PIN_nCE = false ->
  pin_high (controlbus_value st) PIN_nRE = true ->
  latch_command command st
  = (0, mkState command
          (control_pins_driven (controlbus_value st)
             (command_wire (controlbus_value st) command))
          (iobus_bitmask st)
          (wire st ++ command_wire (controlbus_value st) command)
          (iobus_reads st) (controlbus_reads st)).
Proof.
  intros Hce Hre. unfold latch_command. rewrite Hce.
  change PIN_nRE with (2 ^ 4) in *. rewrite pin_low_high, Hre by lia.
  cbn [negb]. destruct st as [io cv bm w ir cr]. run_bus.
  unfold command_wire. cbn [control_pins_driven].
  rewrite <- !app_assoc. reflexivity.
Qed.

Lemma latch_address_loop_runs address n : forall addr_idx st,
  latch_address_loop address addr_idx n st
  = match n with
    | O => st
    | S _ =>
        let lo := clear_bits (controlbus_value st) PIN_nWE in
        let hi := set_bits lo PIN_nWE in
        mkState (nth (addr_idx + n - 1) address 0) hi (iobus_bitmask st)
          (wire st
           ++ flat_map (fun a => [EvControlWrite lo; EvIoWrite a; EvControlWrite hi])
                (map (fun i => nth i address 0) (seq addr_idx n)))
          (iobus_reads st) (controlbus_reads st)
    end.
Proof.
  induction n as [|n IH]; intros addr_idx st; [reflexivity|].
  cbn [latch_address_loop]. rewrite IH.
  destruct st as [io cv bm w ir cr]. unfold latch_address_cycle. run_bus.
  destruct n as [|n].
  - cbn [seq map flat_map app]. rewrite <- !app_assoc.
    replace (addr_idx + 1 - 1)%nat with addr_idx by lia. reflexivity.
  - rewrite clear_set_bits, clear_bits_idem.
    replace (S addr_idx + S n - 1)%nat with (addr_idx + S (S n) - 1)%nat by lia.
    f_equal. rewrite <- !app_assoc. reflexivity.
Qed.

Lemma io_pins_driven_cycles (lo hi : Z) (address : list Z) n : forall k io,
  io_pins_driven io
    (flat_map (fun a => [EvControlWrite lo; EvIoWrite a; EvControlWrite hi])
       (map (fun i => nth i address 0) (seq k (S n))))
  = nth (k + n) address 0.
Proof.
  induction n as [|n IH]; intros k io.
  - cbn [seq map flat_map app io_pins_driven]. rewrite Nat.add_0_r. reflexivity.
  - remember (S n) as m. cbn [seq map flat_map app io_pins_driven]. subst m.
    rewrite IH. f_equal. lia.
Qed.

Lemma latch_address_runs address addr_length st :
  pin_high (controlbus_value st) PIN_nCE = false ->
  pin_high (controlbus_value st) PIN_CLE = false ->
  pin_high (controlbus_value st) PIN_nRE = true ->
  let evs := address_wire (controlbus_value st) (address_bytes address addr_length) in
  latch_address address addr_length st
  = (0, mkState (io_pins_driven (iobus_value st) evs)
          (control_pins_driven (controlbus_value st) evs)
          (iobus_bitmask st) (wire st ++ evs)
          (iobus_reads st) (controlbus_reads st)).
Proof.
  intros Hce Hcle Hre evs. unfold latch_address. rewrite Hce, Hcle.
  change PIN_nRE with (2 ^ 4) in *. rewrite pin_low_high, Hre by lia.
  cbn [negb]. subst evs. destruct st as [io cv bm w ir cr].
  cbn [controlbus_value iobus_value iobus_bitmask wire iobus_reads controlbus_reads].
  unfold address_wire, address_bytes.
  rewrite control_pins_driven_app, io_pins_driven_app.
  cbn [control_pins_driven io_pins_driven].
  rewrite control_pins_driven_app, io_pins_driven_app.
  cbn [control_pins_driven io_pins_driven].
  rewrite latch_address_loop_runs.
  destruct addr_length as [|n].
  - run_bus. cbn [seq map flat_map app io_pins_driven].
    rewrite <- !app_assoc. reflexivity.
  - rewrite io_pins_driven_cycles. run_bus.
    replace (0 + S n - 1)%nat with (0 + n)%nat by lia.
    remember (S n) as m. rewrite <- !app_assoc.
    destruct (map (fun i => nth i address 0) (seq 0 m)) eqn:E.
    + subst m. discriminate E.
    + reflexivity.
Qed.

Lemma samples_S pins k n :
  samples pins k (S n) = sample pins k :: samples pins (S k) n.
Proof. reflexivity. Qed.

Lemma samples_snoc pins k n :
  samples pins k (S n) = samples pins k n ++ [sample pins (k + n)].
Proof.
  unfold samples. rewrite seq_S, map_app. reflexivity.
Qed.

Lemma length_samples pins k n : length (samples pins k n) = n.
Proof. unfold samples. rewrite length_map, length_seq. reflexivity. Qed.

Lemma latch_register_loop_state n : forall addr_idx reg st,
  snd (latch_register_loop addr_idx n reg st)
  = match n with
    | O => st
    | S _ =>
        let lo := clear_bits (controlbus_value st) PIN_nRE in
        let hi := set_bits lo PIN_nRE in
        mkState (iobus_value st) hi (iobus_bitmask st)
          (wire st
           ++ flat_map (fun d => [EvControlWrite lo; EvIoRead d; EvControlWrite hi])
                (samples iobus_pins (iobus_reads st) n))
          (iobus_reads st + n) (controlbus_reads st)
    end.
Proof.
  induction n as [|n IH]; intros addr_idx reg st; [reflexivity|].
  cbn [latch_register_loop]. destruct st as [io cv bm w ir cr].
  unfold latch_register_cycle. run_bus. rewrite IH.
  destruct n as [|n].
  - run_bus. cbn [samples seq map flat_map app]. rewrite <- !app_assoc.
    replace (ir + 1)%nat with (S ir) by lia. reflexivity.
  - run_bus. rewrite clear_set_bits, clear_bits_idem.
    rewrite (samples_S _ ir (S n)). cbn [flat_map app].
    replace (S ir + S n)%nat with (ir + S (S n))%nat by lia.
    f_equal. rewrite <- !app_assoc. reflexivity.
Qed.

Lemma latch_register_loop_reg n : forall pre mid post st,
  length mid = n ->
  fst (latch_register_loop (length pre) n (pre ++ mid ++ post) st)
  = pre ++ samples iobus_pins (iobus_reads st) n ++ post.
Proof.
  induction n as [|n IH]; intros pre mid post st Hlen.
  - destruct mid; [reflexivity | discriminate Hlen].
  - destruct mid as [|m mid]; [discriminate Hlen|].
    cbn [latch_register_loop]. destruct st as [io cv bm w ir cr].
    unfold latch_register_cycle. run_bus.
    rewrite insert_app_r_alt by lia. rewrite Nat.sub_diag.
    cbn [app insert list_insert].
    replace (S (length pre)) with (length (pre ++ [sample iobus_pins ir])).
    2:{ rewrite length_app. cbn [length]. lia. }
    change (iobus_pins ir mod 256) with (sample iobus_pins ir).
    replace (pre ++ sample iobus_pins ir :: mid ++ post)
      with ((pre ++ [sample iobus_pins ir]) ++ mid ++ post)
      by (rewrite <- app_assoc; reflexivity).
    rewrite IH by (cbn [length] in Hlen; lia).
    run_bus. rewrite samples_S, <- app_assoc. reflexivity.
Qed.

Lemma latch_register_runs reg reg_length st :
  pin_high (controlbus_value st) PIN_nCE = false ->
  pin_high (controlbus_value st) PIN_nWE = true ->
  pin_high (controlbus_value st) PIN_ALE = false ->
  let bytes := samples iobus_pins (iobus_reads st) reg_length in
  let evs := data_out_wire (controlbus_value st) bytes in
  exists reg',
    latch_register reg reg_length st
    = (0, reg',
       mkState (iobus_value st)
         (control_pins_driven (controlbus_value st) evs)
         IOBUS_BITMASK_WRITE (wire st ++ evs)
         (iobus_reads st + reg_length) (controlbus_reads st))
    /\ ((reg_length <= length reg)%nat -> reg' = bytes ++ drop reg_length reg).
Proof.
  intros Hce Hwe Hale bytes evs. unfold latch_register. rewrite Hce, Hale.
  change PIN_nWE with (2 ^ 3) in *. rewrite pin_low_high, Hwe by lia.
  cbn [negb].
  pose proof (latch_register_loop_state reg_length 0 reg
                (iobus_set_direction IOBUS_IN st)) as Hst.
  pose proof (fun Hlen => latch_register_loop_reg reg_length []
                (take reg_length reg) (drop reg_length reg)
                (iobus_set_direction IOBUS_IN st) Hlen) as Hreg.
  cbn [app length] in Hreg. rewrite take_drop in Hreg.
  destruct (latch_register_loop 0 reg_length reg (iobus_set_direction IOBUS_IN st))
    as [reg' st'].
  cbn [fst snd] in Hst, Hreg. subst st'. exists reg'. split.
  - f_equal. subst evs bytes. destruct st as [io cv bm w ir cr].
    unfold data_out_wire. rewrite control_pins_driven_app.
    cbn [control_pins_driven]. rewrite control_pins_driven_app.
    cbn [control_pins_driven].
    destruct reg_length as [|n].
    + run_bus. cbn [samples seq map flat_map app control_pins_driven].
      rewrite <- !app_assoc, Nat.add_0_r. reflexivity.
    + run_bus. rewrite <- !app_assoc. cbn [app]. f_equal.
      rewrite samples_snoc, flat_map_app, control_pins_driven_app.
      reflexivity.
  - intros Hlen. subst bytes. destruct st; apply Hreg.
    rewrite length_take. lia.
Qed.

(** ** Data output leaves the bus driven *)

(** C6: with nCE low, nWE high and ALE low, [latch_register] succeeds for
    every count: it sets the I/O channel to input, then for each of the
    [reg_length] bytes writes nRE low, samples the I/O pins once and writes
    nRE high, and last sets the channel back to output, which is the
    direction it returns with; this holds for the count 0 as well, where
    the two direction changes are all that happens. *)
Theorem latch_register_restores_output (reg : list Z) (reg_length : nat) (st : state) :
  pin_high (controlbus_value st) PIN_nCE = false ->
  pin_high (controlbus_value st) PIN_nWE = true ->
  pin_high (controlbus_value st) PIN_ALE = false ->
  let bytes := samples iobus_pins (iobus_reads st) reg_length in
  let lo := clear_bits (controlbus_value st) PIN_nRE in
  let hi := set_bits lo PIN_nRE in
  exists reg' st',
    latch_register reg reg_length st = (0, reg', st')
    /\ wire st'
       = wire st ++ [EvIoBitmode IOBUS_BITMASK_READ]
         ++ flat_map (fun d => [EvControlWrite lo; EvIoRead d; EvControlWrite hi]) bytes
         ++ [EvIoBitmode IOBUS_BITMASK_WRITE]
    /\ pin_high lo PIN_nRE = false /\ pin_high hi PIN_nRE = true
    /\ length bytes = reg_length
    /\ iobus_reads st' = (iobus_reads st + reg_length)%nat
    /\ iobus_bitmask st' = IOBUS_BITMASK_WRITE
    /\ ((reg_length <= length reg)%nat -> take reg_length reg' = bytes)
    /\ (reg_length = 0%nat ->
        reg' = reg
        /\ wire st' = wire st ++ [EvIoBitmode IOBUS_BITMASK_READ;
                                   EvIoBitmode IOBUS_BITMASK_WRITE]).
Proof.
  intros Hce Hwe Hale bytes lo hi.
  destruct (latch_register_runs reg reg_length st Hce Hwe Hale)
    as (reg' & Hrun & Hreg).
  exists reg'. eexists. split; [exact Hrun|].
  cbn [wire iobus_reads iobus_bitmask].
  split; [reflexivity|]. subst lo hi. split; [pin_bits; reflexivity|].
  split; [pin_bits; reflexivity|]. split; [apply length_samples|].
  split; [reflexivity|]. split; [reflexivity|]. split.
  - intros Hlen. rewrite (Hreg Hlen). fold bytes.
    rewrite take_app_length' by (symmetry; apply length_samples). reflexivity.
  - intros ->. split; [|reflexivity].
    rewrite Hreg by lia. reflexivity.
Qed.

(** ** The busy wait *)

Lemma wait_busy_runs n : forall fuel st,
  (forall j, (j < n)%nat ->
     pin_high (sample controlbus_pins (controlbus_reads st + j)) PIN_RDY = false) ->
  pin_high (sample controlbus_pins (controlbus_reads st + n)) PIN_RDY = true ->
  (n < fuel)%nat ->
  wait_busy fuel st
  = Some (mkState (iobus_value st) (controlbus_value st) (iobus_bitmask st)
            (wire st ++ poll_wire (samples controlbus_pins (controlbus_reads st) (S n)))
            (iobus_reads st) (controlbus_reads st + S n)).
Proof.
  induction n as [|n IH]; intros fuel st Hbusy Hrdy Hfuel;
    (destruct fuel as [|fuel]; [lia|]); destruct st as [io cv bm w ir cr];
    cbn [wait_busy]; run_bus; cbn [controlbus_reads] in *;
    change (controlbus_pins cr mod 256) with (sample controlbus_pins cr).
  - rewrite Nat.add_0_r in Hrdy. rewrite Hrdy.
    replace (cr + 1)%nat with (S cr) by lia. reflexivity.
  - rewrite <- (Nat.add_0_r cr) at 1. rewrite Hbusy by lia.
    rewrite IH.
    + cbn [iobus_value controlbus_value iobus_bitmask wire iobus_reads
           controlbus_reads].
      rewrite (samples_S _ cr (S n)). unfold poll_wire.
      cbn [map]. rewrite <- !app_assoc.
      replace (S cr + S n)%nat with (cr + S (S n))%nat by lia. reflexivity.
    + cbn [controlbus_reads]. intros j Hj.
      replace (S cr + j)%nat with (cr + S j)%nat by lia. apply Hbusy. lia.
    + cbn [controlbus_reads].
      replace (S cr + n)%nat with (cr + S n)%nat by lia. exact Hrdy.
    + lia.
Qed.

Lemma wait_busy_never fuel : forall st,
  (forall j, pin_high (sample controlbus_pins (controlbus_reads st + j)) PIN_RDY = false) ->
  wait_busy fuel st = None.
Proof.
  induction fuel as [|fuel IH]; intros st Hbusy; [reflexivity|].
  destruct st as [io cv bm w ir cr]. cbn [wait_busy]. run_bus.
  cbn [controlbus_reads] in Hbusy.
  change (controlbus_pins cr mod 256) with (sample controlbus_pins cr).
  rewrite <- (Nat.add_0_r cr) at 1. rewrite Hbusy.
  apply IH. cbn [controlbus_reads]. intros j.
  replace (S cr + j)%nat with (cr + S j)%nat by lia. apply Hbusy.
Qed.

(** A wait that returns has seen RDY high in its last sample and low in all
    the samples before. *)
Lemma wait_busy_returns fuel : forall st st',
  wait_busy fuel st = Some st' ->
  exists n, (n < fuel)%nat
    /\ (forall j, (j < n)%nat ->
          pin_high (sample controlbus_pins (controlbus_reads st + j)) PIN_RDY = false)
    /\ pin_high (sample controlbus_pins (controlbus_reads st + n)) PIN_RDY = true.
Proof.
  induction fuel as [|fuel IH]; intros st st' H; [discriminate H|].
  destruct st as [io cv bm w ir cr]. cbn [wait_busy] in H. revert H. run_bus.
  change (controlbus_pins cr mod 256) with (sample controlbus_pins cr).
  destruct (pin_high (sample controlbus_pins cr) PIN_RDY) eqn:E; intros H.
  - exists 0%nat. rewrite Nat.add_0_r. split; [lia|]. split; [|exact E].
    intros j Hj. lia.
  - apply IH in H. destruct H as (n & Hn & Hbusy & Hrdy).
    cbn [controlbus_reads] in *. exists (S n). split; [lia|]. split.
    + intros [|j] Hj.
      * rewrite Nat.add_0_r. exact E.
      * replace (cr + S j)%nat with (S cr + j)%nat by lia. apply Hbusy. lia.
    + replace (cr + S n)%nat with (S cr + n)%nat by lia. exact Hrdy.
Qed.

(** Among the samples of a line that is high at some point there is a first
    high one. *)
Lemma first_ready pins k :
  (exists m, pin_high (sample pins (k + m)) PIN_RDY = true) ->
  exists n, ready_at pins k n.
Proof.
  intros [m Hm]. revert k Hm. induction m as [|m IH]; intros k Hm.
  - exists 0%nat. split; [intros j Hj; lia | exact Hm].
  - destruct (pin_high (sample pins k) PIN_RDY) eqn:E.
    + exists 0%nat. rewrite <- (Nat.add_0_r k) in E.
      split; [intros j Hj; lia | exact E].
    + destruct (IH (S k)) as (n & Hbusy & Hrdy).
      { replace (S k + m)%nat with (k + S m)%nat by lia. exact Hm. }
      exists (S n). split.
      * intros [|j] Hj; [rewrite Nat.add_0_r; exact E|].
        replace (k + S j)%nat with (S k + j)%nat by lia. apply Hbusy. lia.
      * replace (k + S n)%nat with (S k + n)%nat by lia. exact Hrdy.
Qed.

(** ** The busy wait has no bound *)

(** C5: the busy wait samples the control pins until a sample has RDY high.
    If some sample from the current one on has RDY high, the wait returns:
    with enough passes allowed it ends right after the first such sample,
    having read every sample up to it and nothing else, and with fewer it is
    still running.  If no sample ever has RDY high, the wait is still running
    after any number of passes: there is no bound and no failure result.  A
    wait that returns has seen RDY high in its last sample and low before. *)
Theorem wait_busy_unbounded (st : state) :
  ((exists m, pin_high (sample controlbus_pins (controlbus_reads st + m)) PIN_RDY = true) ->
   exists n st',
     ready_at controlbus_pins (controlbus_reads st) n
     /\ (forall fuel, (n < fuel)%nat -> wait_busy fuel st = Some st')
     /\ (forall fuel, (fuel <= n)%nat -> wait_busy fuel st = None)
     /\ wire st' = wire st
                   ++ map EvControlRead
                        (samples controlbus_pins (controlbus_reads st) (S n))
     /\ controlbus_reads st' = (controlbus_reads st + S n)%nat
     /\ controlbus_value st' = controlbus_value st
     /\ iobus_value st' = iobus_value st)
  /\ ((forall m, pin_high (sample controlbus_pins (controlbus_reads st + m)) PIN_RDY = false) ->
      forall fuel, wait_busy fuel st = None)
  /\ (forall fuel st', wait_busy fuel st = Some st' ->
      exists n, ready_at controlbus_pins (controlbus_reads st) n
                /\ controlbus_reads st' = (controlbus_reads st + S n)%nat).
Proof.
  split; [|split].
  - intros Hex. destruct (first_ready _ _ Hex) as (n & Hbusy & Hrdy).
    exists n. eexists. split; [split; assumption|].
    split; [intros fuel Hfuel; apply (wait_busy_runs n); assumption|].
    split; [|cbn; auto].
    intros fuel Hfuel. destruct (wait_busy fuel st) as [st'|] eqn:E; [|reflexivity].
    apply wait_busy_returns in E. destruct E as (n' & Hn' & _ & Hrdy').
    rewrite Hbusy in Hrdy' by lia. discriminate Hrdy'.
  - intros Hnever fuel. apply wait_busy_never. exact Hnever.
  - intros fuel st' E. pose proof E as E'. apply wait_busy_returns in E'.
    destruct E' as (n & Hn & Hbusy & Hrdy). exists n. split; [split; assumption|].
    rewrite (wait_busy_runs n fuel st Hbusy Hrdy Hn) in E.
    injection E as <-. reflexivity.
Qed.

(** ** The sequences as the device reads them *)

Ltac pin_facts :=
  unfold bus_idle, chip_selected in *;
  repeat match goal with
    | H : _ /\ _ |- _ => destruct H
    end;
  repeat match goal with
    | H : pin_high _ _ = _ |- _ =>
        rewrite ?pin_high_CLE, ?pin_high_ALE, ?pin_high_nCE, ?pin_high_nWE,
          ?pin_high_nRE, ?pin_high_nWP, ?pin_high_RDY in H
    end.

Ltac use_bits :=
  repeat match goal with
    | H : Z.testbit ?v ?k = _ |- context [Z.testbit ?v ?k] => rewrite H
    end.

Lemma command_wire_ops h v io opcode :
  chip_selected v ->
  pin_high h PIN_nWE = pin_high v PIN_nWE ->
  bus_ops h io (command_wire v opcode) = [OpCommand opcode].
Proof.
  intros Hsel Hwe. pin_facts. unfold command_wire. cbn [bus_ops].
  unfold control_edge. pin_bits. use_bits.
  destruct (Z.testbit v 3); reflexivity.
Qed.

Lemma command_wire_idle h v opcode :
  chip_selected v -> bus_idle (control_pins_driven h (command_wire v opcode)).
Proof.
  intros Hsel. pin_facts. unfold command_wire. cbn [control_pins_driven].
  unfold bus_idle, chip_selected. pin_bits. use_bits. tauto.
Qed.

Lemma command_wire_nWP h v opcode :
  pin_high (control_pins_driven h (command_wire v opcode)) PIN_nWP
  = pin_high v PIN_nWP.
Proof.
  unfold command_wire. cbn [control_pins_driven]. pin_bits. reflexivity.
Qed.

Lemma address_cycles_ops lo hi bytes : forall h io,
  pin_high lo PIN_nWE = false ->
  control_edge lo hi = (fun a => [OpAddress a]) ->
  bus_ops h io
    (flat_map (fun a => [EvControlWrite lo; EvIoWrite a; EvControlWrite hi]) bytes)
  = map OpAddress bytes.
Proof.
  intros h io Hlo Hedge. revert h io.
  induction bytes as [|a bytes IH]; intros h io; [reflexivity|].
  cbn [flat_map app bus_ops map]. rewrite IH, Hedge.
  unfold control_edge. rewrite Hlo, !andb_false_r. reflexivity.
Qed.

Lemma control_pins_driven_cycles (mid : Z -> event) lo hi bytes : forall h,
  bytes <> [] ->
  control_pins_driven h
    (flat_map (fun d => [EvControlWrite lo; mid d; EvControlWrite hi]) bytes)
  = hi.
Proof.
  induction bytes as [|d bytes IH]; intros h Hne; [congruence|].
  cbn [flat_map app]. cbn [control_pins_driven].
  assert (Hrest : control_pins_driven hi
            (flat_map (fun d => [EvControlWrite lo; mid d; EvControlWrite hi]) bytes)
          = hi).
  { destruct bytes as [|d' bytes]; [reflexivity|]. apply IH. congruence. }
  destruct (mid d); exact Hrest.
Qed.

Lemma address_wire_last h v bytes :
  control_pins_driven h (address_wire v bytes)
  = clear_bits
      (match bytes with
       | [] => set_bits v PIN_ALE
       | _ => set_bits (clear_bits (set_bits v PIN_ALE) PIN_nWE) PIN_nWE
       end) PIN_ALE.
Proof.
  unfold address_wire. rewrite !control_pins_driven_app. reflexivity.
Qed.

(** A control write that leaves Write Enable where it was latches nothing. *)
Lemma control_edge_level old new io :
  pin_high new PIN_nWE = pin_high old PIN_nWE -> control_edge old new io = [].
Proof.
  intros H. unfold control_edge. rewrite H.
  destruct (pin_high old PIN_nWE); rewrite ?andb_false_r; reflexivity.
Qed.

Lemma address_wire_ops h v io bytes :
  pin_high v PIN_nCE = false ->
  pin_high v PIN_CLE = false ->
  pin_high v PIN_nRE = true ->
  pin_high h PIN_nWE = pin_high v PIN_nWE ->
  bus_ops h io (address_wire v bytes) = map OpAddress bytes.
Proof.
  intros Hce Hcle Hre Hwe. unfold address_wire.
  cbn [app bus_ops]. rewrite bus_ops_app.
  rewrite control_edge_level by (rewrite Hwe; pin_bits; reflexivity).
  rewrite address_cycles_ops.
  - cbn [bus_ops app]. rewrite control_edge_level, !app_nil_r; [reflexivity|].
    destruct bytes as [|a bytes].
    + cbn [flat_map control_pins_driven]. pin_bits. reflexivity.
    + rewrite (control_pins_driven_cycles EvIoWrite) by congruence.
      pin_bits. reflexivity.
  - pin_bits. reflexivity.
  - pin_facts. unfold control_edge. pin_bits. use_bits. reflexivity.
Qed.

Lemma address_wire_idle h v bytes :
  bus_idle v -> bus_idle (control_pins_driven h (address_wire v bytes)).
Proof.
  intros Hidle. pin_facts. rewrite address_wire_last.
  unfold bus_idle, chip_selected.
  destruct bytes; pin_bits; use_bits; tauto.
Qed.

Lemma address_wire_nWP h v bytes :
  pin_high (control_pins_driven h (address_wire v bytes)) PIN_nWP
  = pin_high v PIN_nWP.
Proof.
  rewrite address_wire_last. destruct bytes; pin_bits; reflexivity.
Qed.

Lemma data_out_cycles_ops lo hi bytes : forall h io,
  data_out_enabled lo = true ->
  pin_high lo PIN_nWE = true ->
  pin_high lo PIN_nRE = false ->
  bus_ops h io
    (flat_map (fun d => [EvControlWrite lo; EvIoRead d; EvControlWrite hi]) bytes)
  = map OpDataOut bytes.
Proof.
  intros h io Hen Hwe Hre. revert h io.
  induction bytes as [|d bytes IH]; intros h io; [reflexivity|].
  cbn [flat_map app bus_ops map]. rewrite IH, Hen.
  unfold control_edge. rewrite Hwe, Hre, !andb_false_r. reflexivity.
Qed.

Lemma data_out_wire_last h v bytes :
  control_pins_driven h (data_out_wire v bytes)
  = match bytes with
    | [] => h
    | _ => set_bits (clear_bits v PIN_nRE) PIN_nRE
    end.
Proof.
  unfold data_out_wire. cbn [app control_pins_driven].
  rewrite control_pins_driven_app. cbn [control_pins_driven].
  destruct bytes as [|d bytes]; [reflexivity|].
  apply (control_pins_driven_cycles EvIoRead). congruence.
Qed.

Lemma data_out_wire_ops h v io bytes :
  bus_idle v -> bus_ops h io (data_out_wire v bytes) = map OpDataOut bytes.
Proof.
  intros Hidle. pin_facts. unfold data_out_wire. cbn [app bus_ops].
  rewrite bus_ops_app, data_out_cycles_ops.
  - cbn [bus_ops]. rewrite app_nil_r. reflexivity.
  - unfold data_out_enabled. pin_bits. use_bits. reflexivity.
  - pin_bits. use_bits. reflexivity.
  - pin_bits. reflexivity.
Qed.

Lemma data_out_wire_idle v bytes :
  bus_idle v -> bus_idle (control_pins_driven v (data_out_wire v bytes)).
Proof.
  intros Hidle. rewrite data_out_wire_last. destruct bytes; [exact Hidle|].
  pin_facts. unfold bus_idle, chip_selected. pin_bits. use_bits. tauto.
Qed.

Lemma data_out_wire_nWP v bytes :
  pin_high (control_pins_driven v (data_out_wire v bytes)) PIN_nWP
  = pin_high v PIN_nWP.
Proof.
  rewrite data_out_wire_last. destruct bytes; [reflexivity|].
  pin_bits. reflexivity.
Qed.

Lemma poll_wire_ops h io bytes :
  bus_ops h io (poll_wire bytes)
  = map (fun b => OpPoll (pin_high b PIN_RDY)) bytes.
Proof.
  unfold poll_wire. induction bytes as [|b bytes IH]; [reflexivity|].
  cbn [map bus_ops]. rewrite IH. reflexivity.
Qed.

Lemma poll_wire_control h bytes : control_pins_driven h (poll_wire bytes) = h.
Proof.
  unfold poll_wire. induction bytes as [|b bytes IH]; [reflexivity|]. exact IH.
Qed.

Lemma poll_wire_io io bytes : io_pins_driven io (poll_wire bytes) = io.
Proof.
  unfold poll_wire. induction bytes as [|b bytes IH]; [reflexivity|]. exact IH.
Qed.

(** ** One latch operation as a step of a flushed run *)

Lemma flushed_run_trans st st1 st2 evs1 evs2 :
  flushed_run st st1 evs1 -> flushed_run st1 st2 evs2 ->
  flushed_run st st2 (evs1 ++ evs2).
Proof.
  intros (Hw1 & Hc1 & Hio1) (Hw2 & Hc2 & Hio2). unfold flushed_run.
  rewrite control_pins_driven_app, io_pins_driven_app, <- Hc1, <- Hio1.
  rewrite Hw2, Hw1, app_assoc. auto.
Qed.

Lemma bus_ops_run st st1 evs1 evs2 :
  flushed_run st st1 evs1 ->
  bus_ops (controlbus_value st) (iobus_value st) (evs1 ++ evs2)
  = bus_ops (controlbus_value st) (iobus_value st) evs1
    ++ bus_ops (controlbus_value st1) (iobus_value st1) evs2.
Proof.
  intros (_ & Hc & Hio). rewrite bus_ops_app, <- Hc, <- Hio. reflexivity.
Qed.

Lemma latch_command_step command st :
  pin_high (controlbus_value st) PIN_nCE = false ->
  pin_high (controlbus_value st) PIN_nRE = true ->
  exists st',
    latch_command command st = (0, st')
    /\ flushed_run st st' (command_wire (controlbus_value st) command)
    /\ iobus_bitmask st' = iobus_bitmask st
    /\ iobus_reads st' = iobus_reads st
    /\ controlbus_reads st' = controlbus_reads st.
Proof.
  intros Hce Hre. eexists. split; [apply latch_command_runs; assumption|].
  unfold flushed_run. cbn. auto.
Qed.

Lemma latch_address_step address addr_length st :
  pin_high (controlbus_value st) PIN_nCE = false ->
  pin_high (controlbus_value st) PIN_CLE = false ->
  pin_high (controlbus_value st) PIN_nRE = true ->
  exists st',
    latch_address address addr_length st = (0, st')
    /\ flushed_run st st'
         (address_wire (controlbus_value st) (address_bytes address addr_length))
    /\ iobus_bitmask st' = iobus_bitmask st
    /\ iobus_reads st' = iobus_reads st
    /\ controlbus_reads st' = controlbus_reads st.
Proof.
  intros Hce Hcle Hre. eexists.
  split; [apply latch_address_runs; assumption|].
  unfold flushed_run.
  cbn [wire controlbus_value iobus_value iobus_bitmask iobus_reads controlbus_reads].
  auto.
Qed.

Lemma latch_register_step reg reg_length st :
  pin_high (controlbus_value st) PIN_nCE = false ->
  pin_high (controlbus_value st) PIN_nWE = true ->
  pin_high (controlbus_value st) PIN_ALE = false ->
  let bytes := samples iobus_pins (iobus_reads st) reg_length in
  exists reg' st',
    latch_register reg reg_length st = (0, reg', st')
    /\ flushed_run st st' (data_out_wire (controlbus_value st) bytes)
    /\ iobus_bitmask st' = IOBUS_BITMASK_WRITE
    /\ iobus_reads st' = (iobus_reads st + reg_length)%nat
    /\ controlbus_reads st' = controlbus_reads st
    /\ ((reg_length <= length reg)%nat -> reg' = bytes ++ drop reg_length reg).
Proof.
  intros Hce Hwe Hale bytes.
  destruct (latch_register_runs reg reg_length st Hce Hwe Hale) as (reg' & Hrun & Hreg).
  exists reg'. eexists. split; [exact Hrun|].
  unfold flushed_run.
  cbn [wire controlbus_value iobus_value iobus_bitmask iobus_reads controlbus_reads].
  repeat split; try reflexivity; try exact Hreg.
  unfold data_out_wire. cbn [app io_pins_driven].
  rewrite io_pins_driven_app. cbn [io_pins_driven].
  generalize (iobus_value st). fold bytes. clear.
  induction bytes as [|d bytes IH]; intros io; [reflexivity | apply IH].
Qed.

Lemma wait_busy_step fuel n st :
  ready_at controlbus_pins (controlbus_reads st) n ->
  (n < fuel)%nat ->
  exists st',
    wait_busy fuel st = Some st'
    /\ flushed_run st st'
         (poll_wire (samples controlbus_pins (controlbus_reads st) (S n)))
    /\ iobus_bitmask st' = iobus_bitmask st
    /\ iobus_reads st' = iobus_reads st
    /\ controlbus_reads st' = (controlbus_reads st + S n)%nat.
Proof.
  intros [Hbusy Hrdy] Hfuel. eexists.
  split; [apply (wait_busy_runs n); assumption|].
  unfold flushed_run.
  cbn [wire controlbus_value iobus_value iobus_bitmask iobus_reads controlbus_reads].
  rewrite poll_wire_control, poll_wire_io. auto.
Qed.

Lemma poll_ops_ready pins k n :
  ready_at pins k n ->
  map (fun b => OpPoll (pin_high b PIN_RDY)) (samples pins k (S n))
  = repeat (OpPoll false) n ++ [OpPoll true].
Proof.
  revert k. induction n as [|n IH]; intros k [Hbusy Hrdy].
  - cbn [samples seq map repeat app]. rewrite Nat.add_0_r in Hrdy.
    rewrite Hrdy. reflexivity.
  - rewrite samples_S. cbn [map repeat app]. f_equal.
    + specialize (Hbusy 0%nat). rewrite Nat.add_0_r in Hbusy.
      rewrite Hbusy by lia. reflexivity.
    + apply IH. split.
      * intros j Hj. replace (S k + j)%nat with (k + S j)%nat by lia.
        apply Hbusy. lia.
      * replace (S k + n)%nat with (k + S n)%nat by lia. exact Hrdy.
Qed.

(** ** The ID register *)

Lemma strncmp_exp_zero (ID_register : list Z) :
  length ID_register = 5%nat ->
  strncmp ID_register_exp ID_register 5 = 0 <-> ID_register = ID_register_exp.
Proof.
  intros Hlen.
  destruct ID_register as [|b0 [|b1 [|b2 [|b3 [|b4 [|b5 r]]]]]];
    try discriminate Hlen.
  unfold ID_register_exp. cbn [strncmp hd tl].
  change (173 =? 0) with false. change (220 =? 0) with false.
  change (16 =? 0) with false. change (149 =? 0) with false.
  change (84 =? 0) with false. cbv iota.
  split.
  - destruct (Z.eqb_spec 173 b0); [|lia].
    destruct (Z.eqb_spec 220 b1); [|lia].
    destruct (Z.eqb_spec 16 b2); [|lia].
    destruct (Z.eqb_spec 149 b3); [|lia].
    destruct (Z.eqb_spec 84 b4); [|lia].
    intros _. congruence.
  - intros H. injection H as -> -> -> -> ->. reflexivity.
Qed.

Lemma check_ID_register_spec (ID_register : list Z) :
  length ID_register = 5%nat ->
  (ID_register = ID_register_exp ->
   check_ID_register ID_register = "PASS: ID register did match"%string)
  /\ (ID_register <> ID_register_exp ->
      check_ID_register ID_register = "FAIL: ID register did not match"%string).
Proof.
  intros Hlen. pose proof (strncmp_exp_zero ID_register Hlen) as Hiff.
  unfold check_ID_register.
  destruct (Z.eqb_spec (strncmp ID_register_exp ID_register 5) 0) as [E|E].
  - split; [reflexivity|]. intros Hne. apply Hiff in E. contradiction.
  - split; [|reflexivity]. intros He. apply Hiff in He. contradiction.
Qed.

Lemma command_wire_pins h v opcode :
  let v' := control_pins_driven h (command_wire v opcode) in
  pin_high v' PIN_CLE = false /\ pin_high v' PIN_nWE = true
  /\ pin_high v' PIN_nCE = pin_high v PIN_nCE
  /\ pin_high v' PIN_nRE = pin_high v PIN_nRE
  /\ pin_high v' PIN_ALE = pin_high v PIN_ALE.
Proof.
  unfold command_wire. cbn [control_pins_driven]. cbv zeta. pin_bits. auto.
Qed.

Lemma address_wire_pins h v a bytes :
  let v' := control_pins_driven h (address_wire v (a :: bytes)) in
  pin_high v' PIN_ALE = false /\ pin_high v' PIN_nWE = true
  /\ pin_high v' PIN_nCE = pin_high v PIN_nCE
  /\ pin_high v' PIN_nRE = pin_high v PIN_nRE
  /\ pin_high v' PIN_CLE = pin_high v PIN_CLE.
Proof.
  cbv zeta. rewrite address_wire_last. pin_bits. auto.
Qed.

(** C7: the ID read of [main] on a selected chip (nCE low, nRE high) gets
    the next five samples of the I/O pins and prints the PASS line if and
    only if these five bytes are 0xAD 0xDC 0x10 0x95 0x54; any other five
    bytes, a zero byte in any position included, give the FAIL line.  Either
    way the block ends normally with one of the two lines. *)
Theorem main_read_ID_verdict (ID_register : list Z) (st : state) :
  pin_high (controlbus_value st) PIN_nCE = false ->
  pin_high (controlbus_value st) PIN_nRE = true ->
  length ID_register = 5%nat ->
  let bytes := samples iobus_pins (iobus_reads st) 5 in
  exists verdict st',
    main_read_ID ID_register st = (bytes, verdict, st')
    /\ (verdict = "PASS: ID register did match"%string
        <-> bytes = [0xAD; 0xDC; 0x10; 0x95; 0x54])
    /\ (verdict = "FAIL: ID register did not match"%string
        <-> bytes <> [0xAD; 0xDC; 0x10; 0x95; 0x54]).
Proof.
  intros Hce Hre Hlen bytes.
  destruct (latch_command_step CMD_READID st Hce Hre)
    as (st1 & E1 & (_ & V1 & _) & _ & R1 & _).
  destruct (command_wire_pins (controlbus_value st) (controlbus_value st) CMD_READID)
    as (Hcle1 & Hwe1 & Hce1 & Hre1 & _).
  rewrite <- V1 in Hcle1, Hwe1, Hce1, Hre1. rewrite Hce in Hce1. rewrite Hre in Hre1.
  destruct (latch_address_step [0] 1 st1 Hce1 Hcle1 Hre1)
    as (st2 & E2 & (_ & V2 & _) & _ & R2 & _).
  change (address_bytes [0] 1) with [0] in V2.
  destruct (address_wire_pins (controlbus_value st1) (controlbus_value st1) 0 [])
    as (Hale2 & Hwe2 & Hce2 & _).
  rewrite <- V2 in Hale2, Hwe2, Hce2. rewrite Hce1 in Hce2.
  destruct (latch_register_step ID_register 5 st2 Hce2 Hwe2 Hale2)
    as (reg & st3 & E3 & _ & _ & _ & _ & Hreg).
  rewrite R2, R1 in Hreg. fold bytes in Hreg.
  specialize (Hreg ltac:(lia)). rewrite drop_ge, app_nil_r in Hreg by lia.
  subst reg.
  exists (check_ID_register bytes), st3. split.
  - unfold main_read_ID. rewrite E1. cbv beta iota. rewrite E2.
    cbv beta iota zeta. rewrite E3. reflexivity.
  - destruct (check_ID_register_spec bytes (length_samples _ _ _)) as [Hp Hf].
    change ID_register_exp with [173; 220; 16; 149; 84] in *.
    destruct (decide (bytes = [173; 220; 16; 149; 84])) as [He|Hne].
    + rewrite (Hp He). split; split; intros; try reflexivity; try assumption.
      * discriminate.
      * contradiction.
    + rewrite (Hf Hne). split; split; intros; try reflexivity; try assumption.
      * discriminate.
      * contradiction.
Qed.

(** ** The composed operations *)

Lemma chip_selected_pins v :
  chip_selected v -> pin_high v PIN_nCE = false /\ pin_high v PIN_nRE = true.
Proof. intros (Hce & Hre & _). auto. Qed.

Lemma bus_idle_pins v :
  bus_idle v ->
  pin_high v PIN_nCE = false /\ pin_high v PIN_nRE = true
  /\ pin_high v PIN_ALE = false /\ pin_high v PIN_CLE = false
  /\ pin_high v PIN_nWE = true.
Proof. intros ((Hce & Hre & Hale) & Hcle & Hwe). auto. Qed.

(** The command step on a selected chip: the device latches the opcode, the
    bus is idle afterwards and Write Protect is where it was. *)
Lemma command_step command st :
  chip_selected (controlbus_value st) ->
  exists st',
    latch_command command st = (0, st')
    /\ flushed_run st st' (command_wire (controlbus_value st) command)
    /\ bus_idle (controlbus_value st')
    /\ pin_high (controlbus_value st') PIN_nWP
       = pin_high (controlbus_value st) PIN_nWP
    /\ iobus_bitmask st' = iobus_bitmask st
    /\ iobus_reads st' = iobus_reads st
    /\ controlbus_reads st' = controlbus_reads st.
Proof.
  intros Hsel. destruct (chip_selected_pins _ Hsel) as [Hce Hre].
  destruct (latch_command_step command st Hce Hre)
    as (st' & Hrun & Hfl & Hbm & Hir & Hcr).
  exists st'. destruct Hfl as (Hw & Hc & Hio).
  repeat split; try assumption.
  - rewrite Hc. apply command_wire_idle, Hsel.
  - rewrite Hc. apply command_wire_idle, Hsel.
  - rewrite Hc. apply command_wire_idle, Hsel.
  - rewrite Hc. apply command_wire_idle, Hsel.
  - rewrite Hc. apply command_wire_idle, Hsel.
  - rewrite Hc. apply command_wire_nWP.
Qed.

Lemma address_step address addr_length st :
  bus_idle (controlbus_value st) ->
  exists st',
    latch_address address addr_length st = (0, st')
    /\ flushed_run st st'
         (address_wire (controlbus_value st) (address_bytes address addr_length))
    /\ bus_idle (controlbus_value st')
    /\ pin_high (controlbus_value st') PIN_nWP
       = pin_high (controlbus_value st) PIN_nWP
    /\ iobus_bitmask st' = iobus_bitmask st
    /\ iobus_reads st' = iobus_reads st
    /\ controlbus_reads st' = controlbus_reads st.
Proof.
  intros Hidle.
  destruct (bus_idle_pins _ Hidle) as (Hce & Hre & Hale & Hcle & Hwe).
  destruct (latch_address_step address addr_length st Hce Hcle Hre)
    as (st' & Hrun & Hfl & Hbm & Hir & Hcr).
  exists st'. destruct Hfl as (Hw & Hc & Hio).
  split; [exact Hrun|]. split; [repeat split; assumption|].
  split; [rewrite Hc; apply address_wire_idle, Hidle|].
  split; [rewrite Hc; apply address_wire_nWP|]. auto.
Qed.

Lemma data_out_step reg reg_length st :
  bus_idle (controlbus_value st) ->
  let bytes := samples iobus_pins (iobus_reads st) reg_length in
  exists reg' st',
    latch_register reg reg_length st = (0, reg', st')
    /\ flushed_run st st' (data_out_wire (controlbus_value st) bytes)
    /\ bus_idle (controlbus_value st')
    /\ pin_high (controlbus_value st') PIN_nWP
       = pin_high (controlbus_value st) PIN_nWP
    /\ iobus_bitmask st' = IOBUS_BITMASK_WRITE
    /\ iobus_reads st' = (iobus_reads st + reg_length)%nat
    /\ controlbus_reads st' = controlbus_reads st
    /\ ((reg_length <= length reg)%nat -> reg' = bytes ++ drop reg_length reg).
Proof.
  intros Hidle bytes.
  destruct (bus_idle_pins _ Hidle) as (Hce & Hre & Hale & Hcle & Hwe).
  destruct (latch_register_step reg reg_length st Hce Hwe Hale)
    as (reg' & st' & Hrun & Hfl & Hbm & Hir & Hcr & Hreg).
  exists reg', st'. destruct Hfl as (Hw & Hc & Hio).
  split; [exact Hrun|]. split; [repeat split; assumption|].
  split; [rewrite Hc; apply data_out_wire_idle, Hidle|].
  split; [rewrite Hc; apply data_out_wire_nWP|]. auto.
Qed.

Lemma wait_step fuel n st :
  ready_at controlbus_pins (controlbus_reads st) n ->
  (n < fuel)%nat ->
  exists st',
    wait_busy fuel st = Some st'
    /\ flushed_run st st'
         (poll_wire (samples controlbus_pins (controlbus_reads st) (S n)))
    /\ controlbus_value st' = controlbus_value st
    /\ iobus_bitmask st' = iobus_bitmask st
    /\ iobus_reads st' = iobus_reads st
    /\ controlbus_reads st' = (controlbus_reads st + S n)%nat.
Proof.
  intros Hrdy Hfuel.
  destruct (wait_busy_step fuel n st Hrdy Hfuel)
    as (st' & Hrun & Hfl & Hbm & Hir & Hcr).
  exists st'. repeat split; try assumption; try apply Hfl.
  destruct Hfl as (_ & Hc & _). rewrite Hc. apply poll_wire_control.
Qed.

Lemma bus_idle_selected v : bus_idle v -> chip_selected v.
Proof. intros [H _]. exact H. Qed.

Lemma row_address_bytes a :
  let addr_cylces := get_address_cycle_map_x8 a in
  address_bytes
    [nth 2 addr_cylces 0; nth 3 addr_cylces 0; nth 4 addr_cylces 0] 3
  = drop 2 addr_cylces.
Proof. reflexivity. Qed.

Lemma page_address_bytes a :
  address_bytes (get_address_cycle_map_x8 a) 5 = get_address_cycle_map_x8 a.
Proof. reflexivity. Qed.

(** ** The latch sequences on a selected chip *)

(** X4: on a selected chip [latch_command] succeeds, adds to the wire
    exactly the five flushes of the command sequence (CLE high, nWE low, the
    opcode on the I/O bus, nWE high, CLE low), which the device reads as one
    latched command, the opcode; every pin change is flushed when it returns,
    and the bus is idle. *)
Theorem latch_command_sequence command (st : state) :
  chip_selected (controlbus_value st) ->
  exists st',
    latch_command command st = (0, st')
    /\ wire st' = wire st ++ command_wire (controlbus_value st) command
    /\ length (command_wire (controlbus_value st) command) = 5%nat
    /\ bus_ops (controlbus_value st) (iobus_value st)
         (command_wire (controlbus_value st) command)
       = [OpCommand command]
    /\ iobus_value st' = command
    /\ controlbus_value st'
       = control_pins_driven (controlbus_value st)
           (command_wire (controlbus_value st) command)
    /\ bus_idle (controlbus_value st').
Proof.
  intros Hsel.
  destruct (command_step command st Hsel)
    as (st' & E & (Hw & Hc & Hio) & Hidle & _).
  exists st'. split; [exact E|]. split; [exact Hw|]. split; [reflexivity|].
  split; [apply command_wire_ops; [exact Hsel | reflexivity]|].
  split; [exact Hio|]. split; [exact Hc | exact Hidle].
Qed.

(** X5: on an idle bus [latch_address] succeeds, adds to the wire exactly
    the address sequence for the first [addr_length] bytes of the array (ALE
    high, then per byte nWE low, the byte on the I/O bus, nWE high, then ALE
    low), which the device reads as these address bytes latched in order
    and nothing else; the bus is idle again when it returns. *)
Theorem latch_address_sequence address addr_length (st : state) :
  bus_idle (controlbus_value st) ->
  (addr_length <= length address)%nat ->
  exists st',
    latch_address address addr_length st = (0, st')
    /\ wire st'
       = wire st ++ address_wire (controlbus_value st) (take addr_length address)
    /\ bus_ops (controlbus_value st) (iobus_value st)
         (address_wire (controlbus_value st) (take addr_length address))
       = map OpAddress (take addr_length address)
    /\ controlbus_value st'
       = control_pins_driven (controlbus_value st)
           (address_wire (controlbus_value st) (take addr_length address))
    /\ bus_idle (controlbus_value st').
Proof.
  intros Hidle Hlen.
  assert (Hbytes : address_bytes address addr_length = take addr_length address).
  { unfold address_bytes. clear Hidle. revert addr_length Hlen.
    induction address as [|a address IH]; intros [|n] Hlen;
      cbn [length] in Hlen; try reflexivity; try lia.
    cbn [seq map nth take]. f_equal.
    rewrite <- seq_shift, map_map. apply IH. lia. }
  destruct (address_step address addr_length st Hidle)
    as (st' & E & (Hw & Hc & _) & Hidle' & _).
  rewrite Hbytes in Hw, Hc.
  destruct (bus_idle_pins _ Hidle) as (Hce & Hre & _ & Hcle & _).
  exists st'. split; [exact E|]. split; [exact Hw|].
  split; [apply address_wire_ops; assumption || reflexivity|].
  split; [exact Hc | exact Hidle'].
Qed.

(** X6: whatever the devices answer, the bus set-up and the ID read of
    [main] hand the chip over selected and with an idle bus, so the first
    page read of the dump starts from the state its sequence needs. *)
Theorem main_reaches_dump_selected (ID_register : list Z) :
  let st := main_bus_setup session_start in
  chip_selected (controlbus_value st)
  /\ control_pins_driven 0x00 (wire st) = controlbus_value st
  /\ bus_idle (controlbus_value (snd (main_read_ID ID_register st))).
Proof.
  cbv zeta. set (st := main_bus_setup session_start).
  assert (Hsel : chip_selected (controlbus_value st)) by (repeat split).
  split; [exact Hsel|]. split; [vm_compute; reflexivity|].
  destruct (command_step CMD_READID st Hsel) as (st1 & E1 & _ & I1 & _).
  destruct (address_step [0] 1 st1 I1) as (st2 & E2 & _ & I2 & _).
  destruct (data_out_step ID_register 5 st2 I2) as (reg & st3 & E3 & _ & I3 & _).
  unfold main_read_ID. rewrite E1. cbv beta iota. rewrite E2.
  cbv beta iota zeta. rewrite E3. exact I3.
Qed.

(** C9: reading a page is the command 0x00, the five address cycles of the
    address map, the command 0x30, a busy wait that ends with the first
    sample in which RDY is high, and 2112 bytes latched out into the page
    array, in this order and with nothing else in between: the transactions
    added to the wire are exactly those five sequences, and the device reads
    them as exactly these bus operations.  The chip is selected again
    afterwards, so the next pass of the loop starts as this one did. *)
Theorem dump_memory_page_sequence fuel n mem_address mem_large_block st :
  chip_selected (controlbus_value st) ->
  ready_at controlbus_pins (controlbus_reads st) n ->
  (n < fuel)%nat ->
  length mem_large_block = 2112%nat ->
  let cycles := get_address_cycle_map_x8 mem_address in
  let polls := samples controlbus_pins (controlbus_reads st) (S n) in
  let page := samples iobus_pins (iobus_reads st) 2112 in
  exists st' evs v1 v2 v3,
    dump_memory_page fuel mem_address mem_large_block st = Some (page, st')
    /\ wire st' = wire st ++ evs
    /\ evs = command_wire (controlbus_value st) 0x00
             ++ address_wire v1 cycles
             ++ command_wire v2 0x30
             ++ poll_wire polls
             ++ data_out_wire v3 page
    /\ length cycles = 5%nat
    /\ length page = 2112%nat
    /\ bus_ops (controlbus_value st) (iobus_value st) evs
       = [OpCommand 0x00] ++ map OpAddress cycles ++ [OpCommand 0x30]
         ++ repeat (OpPoll false) n ++ [OpPoll true]
         ++ map OpDataOut page
    /\ chip_selected (controlbus_value st').
Proof.
  intros Hsel Hrdy Hfuel Hlen cycles polls page.
  destruct (command_step 0x00 st Hsel)
    as (st1 & E1 & F1 & I1 & _ & _ & R1 & C1).
  destruct (address_step cycles 5 st1 I1)
    as (st2 & E2 & F2 & I2 & _ & _ & R2 & C2).
  destruct (command_step 0x30 st2 (bus_idle_selected _ I2))
    as (st3 & E3 & F3 & I3 & _ & _ & R3 & C3).
  assert (Hrdy3 : ready_at controlbus_pins (controlbus_reads st3) n)
    by (rewrite C3, C2, C1; exact Hrdy).
  destruct (wait_step fuel n st3 Hrdy3 Hfuel)
    as (st4 & E4 & F4 & V4 & _ & R4 & C4).
  rewrite <- V4 in I3.
  destruct (data_out_step mem_large_block 2112 st4 I3)
    as (page' & st5 & E5 & F5 & I5 & _ & _ & _ & _ & Hpage).
  rewrite R4, R3, R2, R1 in F5, Hpage. rewrite C3, C2, C1 in F4.
  fold page in F5, Hpage. fold polls in F4.
  assert (Hpage' : page' = page).
  { rewrite Hpage by lia. rewrite drop_ge by lia. apply app_nil_r. }
  subst page'. unfold address_bytes in F2. fold (address_bytes cycles 5) in F2.
  subst cycles. rewrite page_address_bytes in F2.
  set (cycles := get_address_cycle_map_x8 mem_address) in *.
  pose proof (flushed_run_trans _ _ _ _ _ F1 F2) as F12.
  pose proof (flushed_run_trans _ _ _ _ _ F12 F3) as F13.
  pose proof (flushed_run_trans _ _ _ _ _ F13 F4) as F14.
  pose proof (flushed_run_trans _ _ _ _ _ F14 F5) as F15.
  eexists st5, _, (controlbus_value st1), (controlbus_value st2),
    (controlbus_value st4).
  split; [|split; [apply F15|split; [rewrite <- !app_assoc; reflexivity|]]].
  - unfold dump_memory_page. fold cycles.
    change (nth 0 CMD_READ1 0) with 0. change (nth 1 CMD_READ1 0) with 48.
    cbv zeta. rewrite E1. cbv beta iota. rewrite E2. cbv beta iota.
    rewrite E3. cbv beta iota. rewrite E4, E5. reflexivity.
  - split; [reflexivity|]. split; [apply length_samples|].
    rewrite (bus_ops_run _ _ _ _ F14), (bus_ops_run _ _ _ _ F13),
      (bus_ops_run _ _ _ _ F12), (bus_ops_run _ _ _ _ F1).
    rewrite command_wire_ops by (assumption || reflexivity).
    destruct (bus_idle_pins _ I1) as (Hce1 & Hre1 & Hale1 & Hcle1 & Hwe1).
    rewrite address_wire_ops by (assumption || reflexivity).
    rewrite command_wire_ops by (apply bus_idle_selected, I2 || reflexivity).
    rewrite poll_wire_ops. subst polls. rewrite (poll_ops_ready _ _ _ Hrdy).
    rewrite data_out_wire_ops by exact I3.
    rewrite <- !app_assoc. split; [reflexivity|].
    apply bus_idle_selected, I5.
Qed.

(** What [erase_block] does on a selected chip whose RDY line rises: the
    block address the code computes is [2048 * 64 * nBlockId], and the last
    control byte written to the adapter still has Write Protect high. *)
Lemma erase_block_runs fuel n nBlockId status_register st :
  chip_selected (controlbus_value st) ->
  ready_at controlbus_pins (controlbus_reads st) n ->
  (n < fuel)%nat ->
  let rows := drop 2 (get_address_cycle_map_x8 ((2048 * 64 * nBlockId) mod 2 ^ 32)) in
  let status := sample iobus_pins (iobus_reads st) in
  exists st' evs,
    erase_block fuel nBlockId status_register st
    = Some (if pin_high status STATUSREG_IO0 then 1 else 0, st')
    /\ wire st' = wire st ++ evs
    /\ bus_ops (controlbus_value st) (iobus_value st) evs
       = [OpCommand 0x60] ++ map OpAddress rows ++ [OpCommand 0xD0]
         ++ repeat (OpPoll false) n ++ [OpPoll true]
         ++ [OpCommand 0x70; OpDataOut status]
    /\ controlbus_value st' = clear_bits (control_pins_driven (controlbus_value st) evs) PIN_nWP
    /\ pin_high (control_pins_driven (controlbus_value st) evs) PIN_nWP = true.
Proof.
  intros Hsel Hrdy Hfuel rows status.
  set (st0 := controlbus_pin_set PIN_nWP ON st).
  assert (Hsel0 : chip_selected (controlbus_value st0)).
  { pin_facts. unfold chip_selected. subst st0. destruct st. run_bus.
    cbn [controlbus_value] in *. pin_bits. use_bits. auto. }
  assert (Hwp0 : pin_high (controlbus_value st0) PIN_nWP = true).
  { subst st0. destruct st. run_bus. pin_bits. reflexivity. }
  assert (Hwe0 : pin_high (controlbus_value st) PIN_nWE
                 = pin_high (controlbus_value st0) PIN_nWE).
  { subst st0. destruct st. run_bus. pin_bits. reflexivity. }
  destruct (command_step 0x60 st0 Hsel0)
    as (st1 & E1 & F1 & I1 & P1 & _ & R1 & C1).
  assert (F1' : flushed_run st st1 (command_wire (controlbus_value st0) 0x60)).
  { destruct F1 as (Hw & Hc & Hio). subst st0. destruct st.
    repeat split; assumption. }
  set (a := (2048 * 64 * nBlockId) mod 2 ^ 32) in *.
  set (address := [nth 2 (get_address_cycle_map_x8 a) 0;
                   nth 3 (get_address_cycle_map_x8 a) 0;
                   nth 4 (get_address_cycle_map_x8 a) 0]).
  destruct (address_step address 3 st1 I1)
    as (st2 & E2 & F2 & I2 & P2 & _ & R2 & C2).
  subst address. rewrite row_address_bytes in F2. fold rows in F2.
  destruct (command_step 0xD0 st2 (bus_idle_selected _ I2))
    as (st3 & E3 & F3 & I3 & P3 & _ & R3 & C3).
  assert (Hrdy3 : ready_at controlbus_pins (controlbus_reads st3) n).
  { rewrite C3, C2, C1. subst st0. destruct st. exact Hrdy. }
  destruct (wait_step fuel n st3 Hrdy3 Hfuel)
    as (st4 & E4 & F4 & V4 & _ & R4 & C4).
  assert (I4 : bus_idle (controlbus_value st4)) by (rewrite V4; exact I3).
  destruct (command_step 0x70 st4 (bus_idle_selected _ I4))
    as (st5 & E5 & F5 & I5 & P5 & _ & R5 & C5).
  destruct (data_out_step [status_register] 1 st5 I5)
    as (reg & st6 & E6 & F6 & _ & P6 & _ & _ & _ & Hreg).
  assert (Hir : iobus_reads st5 = iobus_reads st).
  { rewrite R5, R4, R3, R2, R1. subst st0. destruct st. reflexivity. }
  rewrite Hir in F6, Hreg. specialize (Hreg ltac:(cbn [length]; lia)).
  cbn [samples seq map drop app] in Hreg, F6. fold status in Hreg, F6.
  subst reg.
  pose proof (flushed_run_trans _ _ _ _ _ F1' F2) as F12.
  pose proof (flushed_run_trans _ _ _ _ _ F12 F3) as F13.
  pose proof (flushed_run_trans _ _ _ _ _ F13 F4) as F14.
  pose proof (flushed_run_trans _ _ _ _ _ F14 F5) as F15.
  pose proof (flushed_run_trans _ _ _ _ _ F15 F6) as F16.
  exists (controlbus_pin_set PIN_nWP OFF st6). eexists.
  split; [|split; [|split; [|split]]].
  - unfold erase_block. fold a.
    change (nth 0 CMD_BLOCKERASE 0) with 96.
    change (nth 1 CMD_BLOCKERASE 0) with 208.
    change CMD_READSTATUS with 112.
    cbv zeta. fold st0. rewrite E1. cbv beta iota. rewrite E2. cbv beta iota.
    rewrite E3. cbv beta iota. rewrite E4, E5. cbv beta iota. rewrite E6.
    cbv beta iota. change (nth 0 [status] 0) with status.
    destruct (pin_high status STATUSREG_IO0); reflexivity.
  - destruct st6. run_bus. apply F16.
  - rewrite (bus_ops_run _ _ _ _ F15), (bus_ops_run _ _ _ _ F14),
      (bus_ops_run _ _ _ _ F13), (bus_ops_run _ _ _ _ F12),
      (bus_ops_run _ _ _ _ F1').
    rewrite (command_wire_ops (controlbus_value st)) by assumption.
    destruct (bus_idle_pins _ I1) as (Hce1 & Hre1 & Hale1 & Hcle1 & Hwe1).
    rewrite address_wire_ops by (assumption || reflexivity).
    rewrite command_wire_ops by (apply bus_idle_selected, I2 || reflexivity).
    rewrite C3, C2, C1, poll_wire_ops.
    replace (controlbus_reads st0) with (controlbus_reads st)
      by (subst st0; destruct st; reflexivity).
    rewrite (poll_ops_ready _ _ _ Hrdy).
    rewrite command_wire_ops by (apply bus_idle_selected, I4 || reflexivity).
    rewrite data_out_wire_ops by exact I5.
    rewrite <- !app_assoc. reflexivity.
  - destruct F16 as (_ & Hc & _). rewrite <- Hc. destruct st6. reflexivity.
  - destruct F16 as (_ & Hc & _). rewrite <- Hc.
    rewrite P6, P5, V4, P3, P2, P1. exact Hwp0.
Qed.

(** ** The whole dump *)




(** ** The result of an erase *)

(** C8: whenever [erase_block] returns, the held control byte has nWP low
    again and the result is 0 or 1; on a selected chip whose RDY line rises
    it does return, with 1 if bit 0 of the status byte read back is set and
    with 0 if it is clear, for every status byte. *)
Theorem erase_block_status_result fuel nBlockId status_register (st : state) :
  (forall r st',
     erase_block fuel nBlockId status_register st = Some (r, st') ->
     pin_high (controlbus_value st') PIN_nWP = false /\ (r = 0 \/ r = 1))
  /\ (chip_selected (controlbus_value st) ->
      forall n, ready_at controlbus_pins (controlbus_reads st) n ->
      (n < fuel)%nat ->
      let status := sample iobus_pins (iobus_reads st) in
      exists st',
        erase_block fuel nBlockId status_register st
        = Some (if pin_high status STATUSREG_IO0 then 1 else 0, st')
        /\ pin_high (controlbus_value st') PIN_nWP = false).
Proof.
  assert (Hall : forall r st',
     erase_block fuel nBlockId status_register st = Some (r, st') ->
     pin_high (controlbus_value st') PIN_nWP = false /\ (r = 0 \/ r = 1)).
  { intros r st'. unfold erase_block. cbv zeta.
    destruct (latch_command _ _) as [r1 s1].
    destruct (latch_address _ _ s1) as [r2 s2].
    destruct (latch_command _ s2) as [r3 s3].
    destruct (wait_busy fuel s3) as [s4|]; [|discriminate].
    destruct (latch_command _ s4) as [r5 s5].
    destruct (latch_register _ _ s5) as [[r6 reg] s6].
    assert (Hwp : pin_high (controlbus_value (controlbus_pin_set PIN_nWP OFF s6))
                    PIN_nWP = false).
    { destruct s6. run_bus. pin_bits. reflexivity. }
    destruct (pin_high _ STATUSREG_IO0); intros H; injection H as <- <-; auto. }
  split; [exact Hall|].
  intros Hsel n Hrdy Hfuel status.
  destruct (erase_block_runs fuel n nBlockId status_register st Hsel Hrdy Hfuel)
    as (st' & evs & Hrun & _).
  exists st'. split; [exact Hrun|]. apply (Hall _ _ Hrun).
Qed.

(** * Further properties *)

(** ** The address cycles hold the address *)

(** X7: the five cycles are a positional encoding of the low 30 bits of the
    address with no gap and no overlap: cycles 0-1 hold the 12-bit column
    [a mod 4096] (cycle 1 below 16), cycles 2-4 the 18-bit row
    [(a / 4096) mod 2^18] (cycle 4 below 4); the address modulo [2^30] is
    recovered from them, so two addresses get the same cycles exactly when
    they agree modulo [2^30]: bits 30 and 31 are dropped and nothing else. *)
Theorem get_address_cycle_map_x8_decode (a : Z) :
  (exists c0 c1 c2 c3 c4,
     get_address_cycle_map_x8 a = [c0; c1; c2; c3; c4]
     /\ 0 <= c0 < 256 /\ 0 <= c1 < 16 /\ 0 <= c2 < 256
     /\ 0 <= c3 < 256 /\ 0 <= c4 < 4
     /\ c0 + 2 ^ 8 * c1 = a mod 4096
     /\ c2 + 2 ^ 8 * c3 + 2 ^ 16 * c4 = (a / 4096) mod 2 ^ 18
     /\ c0 + 2 ^ 8 * c1 + 2 ^ 12 * c2 + 2 ^ 20 * c3 + 2 ^ 28 * c4 = a mod 2 ^ 30)
  /\ (forall b,
        get_address_cycle_map_x8 a = get_address_cycle_map_x8 b
        <-> a mod 2 ^ 30 = b mod 2 ^ 30).
Proof.
  assert (Hform : forall x,
    get_address_cycle_map_x8 x
    = [x mod 2 ^ 8; (x / 2 ^ 8) mod 2 ^ 4; (x / 2 ^ 12) mod 2 ^ 8;
       (x / 2 ^ 20) mod 2 ^ 8; (x / 2 ^ 28) mod 2 ^ 2]).
  { intros x. unfold get_address_cycle_map_x8. rewrite !Z.shiftr_land.
    change (Z.shiftr 3840 8) with (Z.ones 4).
    change (Z.shiftr 1044480 12) with (Z.ones 8).
    change (Z.shiftr 267386880 20) with (Z.ones 8).
    change (Z.shiftr 805306368 28) with (Z.ones 2).
    change 255 with (Z.ones 8).
    rewrite !byte_of_masked by lia.
    rewrite !Z.land_ones, !Z.shiftr_div_pow2 by lia. reflexivity. }
  assert (Hdec : forall x,
    x mod 2 ^ 8 + 2 ^ 8 * ((x / 2 ^ 8) mod 2 ^ 4) + 2 ^ 12 * ((x / 2 ^ 12) mod 2 ^ 8)
    + 2 ^ 20 * ((x / 2 ^ 20) mod 2 ^ 8) + 2 ^ 28 * ((x / 2 ^ 28) mod 2 ^ 2)
    = x mod 2 ^ 30).
  { intros x. change (2 ^ 8) with 256. change (2 ^ 4) with 16.
    change (2 ^ 12) with 4096. change (2 ^ 20) with 1048576.
    change (2 ^ 28) with 268435456. change (2 ^ 2) with 4.
    change (2 ^ 30) with 1073741824.
    Z.to_euclidean_division_equations. lia. }
  split.
  - exists (a mod 2 ^ 8), ((a / 2 ^ 8) mod 2 ^ 4), ((a / 2 ^ 12) mod 2 ^ 8),
      ((a / 2 ^ 20) mod 2 ^ 8), ((a / 2 ^ 28) mod 2 ^ 2).
    split; [apply Hform|].
    repeat (split; [apply Z.mod_pos_bound; reflexivity|]).
    split; [|split; [|apply Hdec]].
    + change (2 ^ 8) with 256. change (2 ^ 4) with 16.
      Z.to_euclidean_division_equations. lia.
    + change (2 ^ 8) with 256. change (2 ^ 12) with 4096.
      change (2 ^ 20) with 1048576. change (2 ^ 28) with 268435456.
      change (2 ^ 2) with 4. change (2 ^ 16) with 65536.
      change (2 ^ 18) with 262144.
      Z.to_euclidean_division_equations. lia.
  - intros b. rewrite !Hform. split.
    + intros H. rewrite <- !Hdec. injection H as -> -> -> -> ->. reflexivity.
    + intros H.
      pose proof (Hdec a) as Ha. pose proof (Hdec b) as Hb. rewrite H in Ha.
      pose proof (Z.mod_pos_bound a (2 ^ 8) eq_refl).
      pose proof (Z.mod_pos_bound (a / 2 ^ 8) (2 ^ 4) eq_refl).
      pose proof (Z.mod_pos_bound (a / 2 ^ 12) (2 ^ 8) eq_refl).
      pose proof (Z.mod_pos_bound (a / 2 ^ 20) (2 ^ 8) eq_refl).
      pose proof (Z.mod_pos_bound (a / 2 ^ 28) (2 ^ 2) eq_refl).
      pose proof (Z.mod_pos_bound b (2 ^ 8) eq_refl).
      pose proof (Z.mod_pos_bound (b / 2 ^ 8) (2 ^ 4) eq_refl).
      pose proof (Z.mod_pos_bound (b / 2 ^ 12) (2 ^ 8) eq_refl).
      pose proof (Z.mod_pos_bound (b / 2 ^ 20) (2 ^ 8) eq_refl).
      pose proof (Z.mod_pos_bound (b / 2 ^ 28) (2 ^ 2) eq_refl).
      rewrite <- Hb in Ha. clear Hb H.
      generalize dependent (a mod 2 ^ 8). generalize dependent ((a / 2 ^ 8) mod 2 ^ 4).
      generalize dependent ((a / 2 ^ 12) mod 2 ^ 8).
      generalize dependent ((a / 2 ^ 20) mod 2 ^ 8).
      generalize dependent ((a / 2 ^ 28) mod 2 ^ 2).
      generalize dependent (b mod 2 ^ 8). generalize dependent ((b / 2 ^ 8) mod 2 ^ 4).
      generalize dependent ((b / 2 ^ 12) mod 2 ^ 8).
      generalize dependent ((b / 2 ^ 20) mod 2 ^ 8).
      generalize dependent ((b / 2 ^ 28) mod 2 ^ 2).
      change (2 ^ 8) with 256. change (2 ^ 4) with 16.
      change (2 ^ 12) with 4096. change (2 ^ 20) with 1048576.
      change (2 ^ 28) with 268435456. change (2 ^ 2) with 4.
      intros d4 H4 d3 H3 d2 H2 d1 H1 d0 H0 c4 G4 c3 G3 c2 G2 c1 G1 c0 G0 Ha.
      assert (E : c0 = d0 /\ c1 = d1 /\ c2 = d2 /\ c3 = d3 /\ c4 = d4) by lia.
      destruct E as (-> & -> & -> & -> & ->). reflexivity.
Qed.

(** ** Pin changes on the same byte *)

Lemma bit_of_disjoint p q i : Z.land p q = 0 -> Z.testbit p i && Z.testbit q i = false.
Proof. intros H. rewrite <- Z.land_spec, H. apply Z.bits_0. Qed.

Lemma set_clear_disjoint v p q :
  Z.land p q = 0 -> set_bits (clear_bits v q) p = clear_bits (set_bits v p) q.
Proof.
  intros H. apply byte_ext; try apply set_bits_range; try apply clear_bits_range.
  intros i Hi. rewrite set_bits_testbit, !clear_bits_testbit, set_bits_testbit by lia.
  pose proof (bit_of_disjoint p q i H).
  destruct (Z.testbit v i), (Z.testbit p i), (Z.testbit q i);
    try reflexivity; discriminate.
Qed.

Lemma set_set_comm v p q : set_bits (set_bits v q) p = set_bits (set_bits v p) q.
Proof.
  apply byte_ext; try apply set_bits_range. intros i Hi.
  rewrite !set_bits_testbit by lia.
  destruct (Z.testbit v i), (Z.testbit p i), (Z.testbit q i); reflexivity.
Qed.

Lemma clear_clear_comm v p q :
  clear_bits (clear_bits v q) p = clear_bits (clear_bits v p) q.
Proof.
  apply byte_ext; try apply clear_bits_range. intros i Hi.
  rewrite !clear_bits_testbit by lia.
  destruct (Z.testbit v i), (Z.testbit p i), (Z.testbit q i); reflexivity.
Qed.

(** X8: pin changes on disjoint masks can be made in either order, whatever
    the two levels, and of two changes of the same mask the later one
    decides: this is what lets [main] set nRE, nCE and nWP one after the
    other and flush once. *)
Theorem controlbus_pin_set_compose (p q : Z) (a b : onoff_t) (st : state) :
  Z.land p q = 0 ->
  controlbus_pin_set p a (controlbus_pin_set q b st)
  = controlbus_pin_set q b (controlbus_pin_set p a st)
  /\ controlbus_pin_set p a (controlbus_pin_set p b st) = controlbus_pin_set p a st
  /\ iobus_pin_set p a (iobus_pin_set q b st)
     = iobus_pin_set q b (iobus_pin_set p a st)
  /\ iobus_pin_set p a (iobus_pin_set p b st) = iobus_pin_set p a st.
Proof.
  intros H. assert (H' : Z.land q p = 0) by (rewrite Z.land_comm; exact H).
  destruct st as [io cv bm w ir cr].
  destruct a, b; run_bus;
    rewrite ?clear_bits_idem, ?set_bits_idem, ?clear_set_bits, ?set_clear_bits;
    repeat split; f_equal;
    first [ reflexivity
          | apply clear_clear_comm
          | apply set_set_comm
          | apply set_clear_disjoint; assumption
          | symmetry; apply set_clear_disjoint; assumption ].
Qed.

(** ** The pins a latch operation owns *)

Lemma set_bits_agree m c q :
  0 <= m < 256 -> Z.land q m = 0 -> Z.land (set_bits c q) m = Z.land c m.
Proof.
  intros Hm Hq. apply Z.bits_inj'. intros i Hi. rewrite !Z.land_spec.
  destruct (Z.lt_ge_cases i 8).
  - rewrite set_bits_testbit by lia. pose proof (bit_of_disjoint q m i Hq).
    destruct (Z.testbit c i), (Z.testbit q i), (Z.testbit m i);
      try reflexivity; discriminate.
  - rewrite (byte_testbit_high m) by lia. rewrite !andb_false_r. reflexivity.
Qed.

Lemma clear_bits_agree m c q :
  0 <= m < 256 -> Z.land q m = 0 -> Z.land (clear_bits c q) m = Z.land c m.
Proof.
  intros Hm Hq. apply Z.bits_inj'. intros i Hi. rewrite !Z.land_spec.
  destruct (Z.lt_ge_cases i 8).
  - rewrite clear_bits_testbit by lia. pose proof (bit_of_disjoint q m i Hq).
    destruct (Z.testbit c i), (Z.testbit q i), (Z.testbit m i);
      try reflexivity; discriminate.
  - rewrite (byte_testbit_high m) by lia. rewrite !andb_false_r. reflexivity.
Qed.

(** Bytes that agree on a mask agree on every pin inside it. *)
Lemma agree_on_pin m v c pin :
  agree_on m v c -> Z.land m pin = pin -> pin_high c pin = pin_high v pin.
Proof.
  intros H Hpin. unfold pin_high. rewrite <- Hpin, !Z.land_assoc, H.
  reflexivity.
Qed.

Lemma control_writes_app P l1 l2 :
  control_writes P l1 -> control_writes P l2 -> control_writes P (l1 ++ l2).
Proof. unfold control_writes. rewrite Forall_app. auto. Qed.

Lemma control_writes_impl (P Q : Z -> Prop) evs :
  (forall c, P c -> Q c) -> control_writes P evs -> control_writes Q evs.
Proof.
  intros H HP. unfold control_writes in *.
  eapply Forall_impl; [exact HP|]. intros [c| | | |]; auto.
Qed.

Lemma control_writes_cycles P (mid : Z -> event) lo hi bytes :
  P lo -> P hi -> (forall d, control_writes P [mid d]) ->
  control_writes P
    (flat_map (fun d => [EvControlWrite lo; mid d; EvControlWrite hi]) bytes).
Proof.
  intros Hlo Hhi Hmid. induction bytes as [|d bytes IH]; [constructor|].
  cbn [flat_map app]. constructor; [exact Hlo|].
  constructor; [specialize (Hmid d); inversion Hmid; assumption|].
  constructor; [exact Hhi | exact IH].
Qed.

Ltac mask_side :=
  first [ reflexivity
        | split; [ intros Hc; vm_compute in Hc; discriminate Hc | reflexivity ] ].

Ltac agree_bits :=
  repeat first [ rewrite clear_bits_agree by mask_side
               | rewrite set_bits_agree by mask_side ];
  try reflexivity.

Lemma command_wire_frame v opcode :
  control_writes (agree_on (Z.lxor 0xFF (Z.lor PIN_CLE PIN_nWE)) v)
    (command_wire v opcode)
  /\ writes_only (command_wire v opcode).
Proof.
  unfold command_wire, control_writes, writes_only, agree_on.
  split; repeat constructor;
    agree_bits.
Qed.

Lemma address_wire_frame v bytes :
  control_writes (agree_on (Z.lxor 0xFF (Z.lor PIN_ALE PIN_nWE)) v)
    (address_wire v bytes)
  /\ writes_only (address_wire v bytes).
Proof.
  unfold address_wire. split.
  - apply control_writes_app; [|apply control_writes_app].
    + repeat constructor. unfold agree_on.
      agree_bits.
    + apply control_writes_cycles; try (intros d; repeat constructor);
        unfold agree_on;
        agree_bits.
    + repeat constructor. unfold agree_on. destruct bytes;
        agree_bits.
  - unfold writes_only. rewrite !Forall_app. split; [repeat constructor|].
    split; [|repeat constructor].
    induction bytes as [|a bytes IH]; [constructor|].
    cbn [flat_map app]. repeat (constructor; [exact I|]). exact IH.
Qed.

Lemma data_out_wire_frame v bytes :
  control_writes (agree_on (Z.lxor 0xFF PIN_nRE) v) (data_out_wire v bytes)
  /\ no_io_write (data_out_wire v bytes).
Proof.
  unfold data_out_wire. split.
  - apply control_writes_app; [|apply control_writes_app];
      try (repeat constructor).
    apply control_writes_cycles; try (intros d; repeat constructor);
      unfold agree_on;
      agree_bits.
  - unfold no_io_write. rewrite !Forall_app. split; [repeat constructor|].
    split; [|repeat constructor].
    induction bytes as [|d bytes IH]; [constructor|].
    cbn [flat_map app]. repeat (constructor; [exact I|]). exact IH.
Qed.

(** X9: in every state [latch_command] writes only control bytes that
    differ from the held byte on entry in CLE and nWE at most: nCE, ALE, nRE,
    nWP, RDY and LED are never changed, on the wire or in the held byte; it
    samples nothing and leaves the direction of the I/O channel alone. *)
Theorem latch_command_frame (command : Z) (st : state) :
  let m := Z.lxor 0xFF (Z.lor PIN_CLE PIN_nWE) in
  let st' := snd (latch_command command st) in
  exists evs,
    wire st' = wire st ++ evs
    /\ control_writes (agree_on m (controlbus_value st)) evs
    /\ writes_only evs
    /\ agree_on m (controlbus_value st) (controlbus_value st')
    /\ iobus_bitmask st' = iobus_bitmask st
    /\ iobus_reads st' = iobus_reads st
    /\ controlbus_reads st' = controlbus_reads st.
Proof.
  cbv zeta. unfold latch_command.
  destruct (pin_high (controlbus_value st) PIN_nCE) eqn:Hce.
  { exists []. cbn [snd]. rewrite app_nil_r. repeat split; constructor. }
  destruct (pin_low (controlbus_value st) PIN_nRE) eqn:Hre.
  { exists []. cbn [snd]. rewrite app_nil_r. repeat split; constructor. }
  change PIN_nRE with (2 ^ 4) in Hre. rewrite pin_low_high in Hre by lia.
  apply negb_false_iff in Hre.
  pose proof (latch_command_runs command st Hce Hre) as Hrun.
  unfold latch_command in Hrun. rewrite Hce in Hrun.
  change PIN_nRE with (2 ^ 4) in Hrun. rewrite pin_low_high, Hre in Hrun by lia.
  cbn [negb] in Hrun. rewrite Hrun. cbn [snd wire controlbus_value
    iobus_bitmask iobus_reads controlbus_reads].
  exists (command_wire (controlbus_value st) command).
  destruct (command_wire_frame (controlbus_value st) command) as [Hcw Hwo].
  repeat split; try assumption.
  unfold command_wire, agree_on. cbn [control_pins_driven].
  agree_bits.
Qed.

(** X10: in every state and for every array and length [latch_address]
    writes only control bytes that differ from the held byte on entry in ALE
    and nWE at most; it samples nothing and leaves the direction of the I/O
    channel alone. *)
Theorem latch_address_frame (address : list Z) (addr_length : nat) (st : state) :
  let m := Z.lxor 0xFF (Z.lor PIN_ALE PIN_nWE) in
  let st' := snd (latch_address address addr_length st) in
  exists evs,
    wire st' = wire st ++ evs
    /\ control_writes (agree_on m (controlbus_value st)) evs
    /\ writes_only evs
    /\ agree_on m (controlbus_value st) (controlbus_value st')
    /\ iobus_bitmask st' = iobus_bitmask st
    /\ iobus_reads st' = iobus_reads st
    /\ controlbus_reads st' = controlbus_reads st.
Proof.
  cbv zeta. unfold latch_address.
  destruct (pin_high (controlbus_value st) PIN_nCE) eqn:Hce.
  { exists []. cbn [snd]. rewrite app_nil_r. repeat split; constructor. }
  destruct (pin_high (controlbus_value st) PIN_CLE) eqn:Hcle.
  { exists []. cbn [snd]. rewrite app_nil_r. repeat split; constructor. }
  destruct (pin_low (controlbus_value st) PIN_nRE) eqn:Hre.
  { exists []. cbn [snd]. rewrite app_nil_r. repeat split; constructor. }
  change PIN_nRE with (2 ^ 4) in Hre. rewrite pin_low_high in Hre by lia.
  apply negb_false_iff in Hre.
  pose proof (latch_address_runs address addr_length st Hce Hcle Hre) as Hrun.
  cbv zeta in Hrun. unfold latch_address in Hrun. rewrite Hce, Hcle in Hrun.
  change PIN_nRE with (2 ^ 4) in Hrun. rewrite pin_low_high, Hre in Hrun by lia.
  cbn [negb] in Hrun. rewrite Hrun. cbn [snd wire controlbus_value
    iobus_bitmask iobus_reads controlbus_reads].
  exists (address_wire (controlbus_value st) (address_bytes address addr_length)).
  destruct (address_wire_frame (controlbus_value st)
              (address_bytes address addr_length)) as [Hcw Hwo].
  repeat split; try assumption.
  rewrite address_wire_last. unfold agree_on.
  destruct (address_bytes address addr_length);
    agree_bits.
Qed.

(** X11: in every state and for every array and count [latch_register]
    writes only control bytes that differ from the held byte on entry in nRE
    at most, never writes a byte to the I/O bus, and leaves the held data
    byte and the read count of the control channel as they were. *)
Theorem latch_register_frame (reg : list Z) (reg_length : nat) (st : state) :
  let m := Z.lxor 0xFF PIN_nRE in
  let st' := snd (latch_register reg reg_length st) in
  exists evs,
    wire st' = wire st ++ evs
    /\ control_writes (agree_on m (controlbus_value st)) evs
    /\ no_io_write evs
    /\ agree_on m (controlbus_value st) (controlbus_value st')
    /\ iobus_value st' = iobus_value st
    /\ controlbus_reads st' = controlbus_reads st.
Proof.
  cbv zeta. unfold latch_register.
  destruct (pin_high (controlbus_value st) PIN_nCE) eqn:Hce.
  { exists []. cbn [snd]. rewrite app_nil_r. repeat split; constructor. }
  destruct (pin_low (controlbus_value st) PIN_nWE) eqn:Hwe.
  { exists []. cbn [snd]. rewrite app_nil_r. repeat split; constructor. }
  destruct (pin_high (controlbus_value st) PIN_ALE) eqn:Hale.
  { exists []. cbn [snd]. rewrite app_nil_r. repeat split; constructor. }
  change PIN_nWE with (2 ^ 3) in Hwe. rewrite pin_low_high in Hwe by lia.
  apply negb_false_iff in Hwe.
  destruct (latch_register_runs reg reg_length st Hce Hwe Hale)
    as (reg' & Hrun & _).
  unfold latch_register in Hrun. rewrite Hce, Hale in Hrun.
  change PIN_nWE with (2 ^ 3) in Hrun. rewrite pin_low_high, Hwe in Hrun by lia.
  cbn [negb] in Hrun. rewrite Hrun. cbn [snd wire controlbus_value
    iobus_value iobus_bitmask iobus_reads controlbus_reads].
  eexists.
  destruct (data_out_wire_frame (controlbus_value st)
              (samples iobus_pins (iobus_reads st) reg_length)) as [Hcw Hnw].
  split; [reflexivity|]. repeat split; try assumption.
  rewrite data_out_wire_last. unfold agree_on.
  destruct (samples iobus_pins (iobus_reads st) reg_length);
    agree_bits.
Qed.

(** X12: with its preconditions met and an array of at least [reg_length]
    entries, [latch_register] overwrites exactly the first [reg_length]
    entries, entry [i] with the [i]-th byte sampled, and keeps the rest of the
    array and its length. *)
Theorem latch_register_array (reg : list Z) (reg_length : nat) (st : state) :
  pin_high (controlbus_value st) PIN_nCE = false ->
  pin_high (controlbus_value st) PIN_nWE = true ->
  pin_high (controlbus_value st) PIN_ALE = false ->
  (reg_length <= length reg)%nat ->
  let reg' := snd (fst (latch_register reg reg_length st)) in
  length reg' = length reg
  /\ (forall i, (i < reg_length)%nat ->
        nth i reg' 0 = sample iobus_pins (iobus_reads st + i))
  /\ (forall i, (reg_length <= i)%nat -> nth i reg' 0 = nth i reg 0).
Proof.
  intros Hce Hwe Hale Hlen.
  destruct (latch_register_runs reg reg_length st Hce Hwe Hale)
    as (reg' & Hrun & Hreg).
  cbv zeta. rewrite Hrun. cbn [fst snd]. rewrite (Hreg Hlen). clear Hrun Hreg.
  split; [|split].
  - rewrite length_app, length_samples, length_drop. lia.
  - intros i Hi. rewrite app_nth1 by (rewrite length_samples; exact Hi).
    unfold samples.
    rewrite (nth_indep _ 0 (sample iobus_pins 0))
      by (rewrite length_map, length_seq; exact Hi).
    rewrite map_nth, seq_nth by exact Hi. reflexivity.
  - intros i Hi. rewrite app_nth2 by (rewrite length_samples; lia).
    rewrite length_samples.
    rewrite <- (take_drop reg_length reg) at 2.
    rewrite app_nth2 by (rewrite length_take; lia).
    rewrite length_take. f_equal. lia.
Qed.

(** ** The visual bus tests *)

Ltac byte_cases i :=
  let H := fresh in
  assert (H : i = 0 \/ i = 1 \/ i = 2 \/ i = 3 \/ i = 4 \/ i = 5 \/ i = 6 \/ i = 7)
    by lia;
  destruct H as [->|[->|[->|[->|[->|[->|[->| ->]]]]]]].

Ltac split_bits v :=
  repeat match goal with
    | |- context [Z.testbit v ?k] => destruct (Z.testbit v k)
    end.

(** X13: from any state [test_controlbus] makes exactly fourteen control
    writes and nothing else; the RDY bit of the held byte is in none of them
    changed; after the seventh all seven driven pins are high; at the end
    all seven are low again, the held byte is the one on the pins, and the
    I/O bus has not been touched.  Started from a flushed state, the walk
    never makes the device latch a command or an address or shift out data:
    nWE only rises while nCE is high. *)
Theorem test_controlbus_walk (st : state) :
  let st' := test_controlbus st in
  exists evs,
    wire st' = wire st ++ evs
    /\ length evs = 14%nat
    /\ writes_only evs /\ no_io_write evs
    /\ control_writes (agree_on PIN_RDY (controlbus_value st)) evs
    /\ (exists c, nth_error evs 6 = Some (EvControlWrite c)
                  /\ Z.land c CONTROLBUS_BITMASK = CONTROLBUS_BITMASK)
    /\ controlbus_value st' = Z.land (controlbus_value st) PIN_RDY
    /\ control_pins_driven (controlbus_value st) evs = controlbus_value st'
    /\ bus_ops (controlbus_value st) (iobus_value st) evs = []
    /\ iobus_value st' = iobus_value st
    /\ iobus_bitmask st' = iobus_bitmask st
    /\ iobus_reads st' = iobus_reads st
    /\ controlbus_reads st' = controlbus_reads st.
Proof.
  destruct st as [io cv bm w ir cr]. unfold test_controlbus. run_bus.
  eexists. split; [rewrite <- !app_assoc; reflexivity|].
  cbn [app]. split; [reflexivity|]. split; [repeat constructor|].
  split; [repeat constructor|].
  split; [unfold agree_on; repeat constructor; agree_bits|].
  split.
  { eexists. split; [reflexivity|]. apply Z.bits_inj'. intros i Hi.
    rewrite Z.land_spec. destruct (Z.lt_ge_cases i 8).
    - byte_cases i; pin_bits; reflexivity.
    - rewrite (byte_testbit_high CONTROLBUS_BITMASK) by (unfold CONTROLBUS_BITMASK; lia).
      apply andb_false_r. }
  assert (Hfinal :
    clear_bits (clear_bits (clear_bits (clear_bits (clear_bits (clear_bits
      (clear_bits (set_bits (set_bits (set_bits (set_bits (set_bits (set_bits
      (set_bits cv PIN_CLE) PIN_ALE) PIN_nCE) PIN_nWE) PIN_nRE) PIN_nWP) PIN_LED)
      PIN_CLE) PIN_ALE) PIN_nCE) PIN_nWE) PIN_nRE) PIN_nWP) PIN_LED
    = Z.land cv PIN_RDY).
  { apply Z.bits_inj'. intros i Hi. rewrite Z.land_spec.
    destruct (Z.lt_ge_cases i 8).
    - byte_cases i; pin_bits; reflexivity.
    - rewrite (byte_testbit_high PIN_RDY) by (unfold PIN_RDY; lia).
      rewrite byte_testbit_high by (apply clear_bits_range || lia).
      symmetry. apply andb_false_r. }
  split; [exact Hfinal|]. split; [cbn [control_pins_driven]; reflexivity|].
  split; [|repeat split].
  cbn [bus_ops app]. unfold control_edge. pin_bits.
  split_bits cv; reflexivity.
Qed.

(** X14: from any state [test_iobus] makes exactly twenty-one writes to the
    I/O bus and nothing else; whatever byte was held before, the eighth
    write is 0xFF, the sixteenth 0x00 and the last 0x55, which is the held
    byte at the end; the control byte and the control pins are not
    touched. *)
Theorem test_iobus_walk (st : state) :
  let st' := test_iobus st in
  exists evs,
    wire st' = wire st ++ evs
    /\ length evs = 21%nat
    /\ writes_only evs
    /\ control_writes (fun _ => False) evs
    /\ nth_error evs 7 = Some (EvIoWrite 0xFF)
    /\ nth_error evs 15 = Some (EvIoWrite 0x00)
    /\ nth_error evs 20 = Some (EvIoWrite 0x55)
    /\ iobus_value st' = 0x55
    /\ controlbus_value st' = controlbus_value st
    /\ iobus_bitmask st' = iobus_bitmask st
    /\ iobus_reads st' = iobus_reads st
    /\ controlbus_reads st' = controlbus_reads st.
Proof.
  destruct st as [io cv bm w ir cr]. unfold test_iobus. run_bus.
  assert (Hon :
    set_bits (set_bits (set_bits (set_bits (set_bits (set_bits (set_bits
      (set_bits io PIN_DIO0) PIN_DIO1) PIN_DIO2) PIN_DIO3) PIN_DIO4) PIN_DIO5)
      PIN_DIO6) PIN_DIO7 = 0xFF).
  { apply byte_ext; [apply set_bits_range | lia |]. intros i Hi.
    byte_cases i; pin_bits; reflexivity. }
  assert (Hoff :
    clear_bits (clear_bits (clear_bits (clear_bits (clear_bits (clear_bits
      (clear_bits (clear_bits 0xFF PIN_DIO0) PIN_DIO1) PIN_DIO2) PIN_DIO3)
      PIN_DIO4) PIN_DIO5) PIN_DIO6) PIN_DIO7 = 0x00) by reflexivity.
  assert (Hlast :
    set_bits (set_bits (set_bits (set_bits 0 PIN_DIO0) PIN_DIO2) PIN_DIO4)
      PIN_DIO6 = 0x55) by reflexivity.
  rewrite Hlast.
  eexists. split; [rewrite <- !app_assoc; reflexivity|].
  cbn [app]. split; [reflexivity|]. split; [repeat constructor|].
  split; [repeat constructor|].
  cbn [nth_error]. rewrite Hon, Hoff. repeat split.
Qed.

(** ** Write Protect and Chip Enable along the sequences *)

Lemma command_wire_keeps v opcode bw bc :
  pin_high v PIN_nWP = bw -> pin_high v PIN_nCE = bc ->
  control_writes (fun c => pin_high c PIN_nWP = bw /\ pin_high c PIN_nCE = bc)
    (command_wire v opcode).
Proof.
  intros Hw Hc. eapply control_writes_impl; [|apply command_wire_frame].
  intros c H. cbv beta.
  rewrite (agree_on_pin _ _ _ PIN_nWP H), (agree_on_pin _ _ _ PIN_nCE H)
    by reflexivity. auto.
Qed.

Lemma address_wire_keeps v bytes bw bc :
  pin_high v PIN_nWP = bw -> pin_high v PIN_nCE = bc ->
  control_writes (fun c => pin_high c PIN_nWP = bw /\ pin_high c PIN_nCE = bc)
    (address_wire v bytes).
Proof.
  intros Hw Hc. eapply control_writes_impl; [|apply address_wire_frame].
  intros c H. cbv beta.
  rewrite (agree_on_pin _ _ _ PIN_nWP H), (agree_on_pin _ _ _ PIN_nCE H)
    by reflexivity. auto.
Qed.

Lemma data_out_wire_keeps v bytes bw bc :
  pin_high v PIN_nWP = bw -> pin_high v PIN_nCE = bc ->
  control_writes (fun c => pin_high c PIN_nWP = bw /\ pin_high c PIN_nCE = bc)
    (data_out_wire v bytes).
Proof.
  intros Hw Hc. eapply control_writes_impl; [|apply data_out_wire_frame].
  intros c H. cbv beta.
  rewrite (agree_on_pin _ _ _ PIN_nWP H), (agree_on_pin _ _ _ PIN_nCE H)
    by reflexivity. auto.
Qed.

Lemma poll_wire_keeps P bytes : control_writes P (poll_wire bytes).
Proof.
  unfold control_writes, poll_wire.
  induction bytes as [|b bytes IH]; constructor; [exact I | exact IH].
Qed.

Lemma chip_selected_nCE v : chip_selected v -> pin_high v PIN_nCE = false.
Proof. intros (H & _). exact H. Qed.

(** X15: on a selected chip whose RDY line rises, [erase_block] returns,
    and what the device has read by then is exactly: the command 0x60, the
    three row cycles (cycles 2..4 of the address map, in order, at the
    linear address [2048 * 64 * nBlockId] modulo [2^32]) and no column
    cycle, the command 0xD0, the polls up to the first one that shows RDY
    high, the command 0x70 and one status byte, the device's next I/O
    sample.  Every control byte written on the way has nWP high and nCE
    low. *)
Theorem erase_block_sequence fuel n nBlockId status_register (st : state) :
  chip_selected (controlbus_value st) ->
  ready_at controlbus_pins (controlbus_reads st) n ->
  (n < fuel)%nat ->
  let rows := drop 2 (get_address_cycle_map_x8 ((2048 * 64 * nBlockId) mod 2 ^ 32)) in
  let status := sample iobus_pins (iobus_reads st) in
  exists st' evs,
    erase_block fuel nBlockId status_register st
    = Some (if pin_high status STATUSREG_IO0 then 1 else 0, st')
    /\ wire st' = wire st ++ evs
    /\ length rows = 3%nat
    /\ bus_ops (controlbus_value st) (iobus_value st) evs
       = [OpCommand 0x60] ++ map OpAddress rows ++ [OpCommand 0xD0]
         ++ repeat (OpPoll false) n ++ [OpPoll true]
         ++ [OpCommand 0x70; OpDataOut status]
    /\ control_writes
         (fun c => pin_high c PIN_nWP = true /\ pin_high c PIN_nCE = false) evs
    /\ iobus_reads st' = S (iobus_reads st)
    /\ controlbus_reads st' = (controlbus_reads st + S n)%nat.
Proof.
  intros Hsel Hrdy Hfuel rows status.
  set (st0 := controlbus_pin_set PIN_nWP ON st).
  assert (Hsel0 : chip_selected (controlbus_value st0)).
  { pin_facts. unfold chip_selected. subst st0. destruct st. run_bus.
    cbn [controlbus_value] in *. pin_bits. use_bits. auto. }
  assert (Hwp0 : pin_high (controlbus_value st0) PIN_nWP = true).
  { subst st0. destruct st. run_bus. pin_bits. reflexivity. }
  assert (Hwe0 : pin_high (controlbus_value st) PIN_nWE
                 = pin_high (controlbus_value st0) PIN_nWE).
  { subst st0. destruct st. run_bus. pin_bits. reflexivity. }
  assert (Hfields : iobus_reads st0 = iobus_reads st
                    /\ controlbus_reads st0 = controlbus_reads st)
    by (subst st0; destruct st; split; reflexivity).
  destruct Hfields as [Hir0 Hcr0].
  destruct (command_step 0x60 st0 Hsel0)
    as (st1 & E1 & F1 & I1 & P1 & _ & R1 & C1).
  assert (F1' : flushed_run st st1 (command_wire (controlbus_value st0) 0x60)).
  { destruct F1 as (Hw & Hc & Hio). subst st0. destruct st.
    repeat split; assumption. }
  set (a := (2048 * 64 * nBlockId) mod 2 ^ 32) in *.
  set (address := [nth 2 (get_address_cycle_map_x8 a) 0;
                   nth 3 (get_address_cycle_map_x8 a) 0;
                   nth 4 (get_address_cycle_map_x8 a) 0]).
  destruct (address_step address 3 st1 I1)
    as (st2 & E2 & F2 & I2 & P2 & _ & R2 & C2).
  subst address. rewrite row_address_bytes in F2. fold rows in F2.
  destruct (command_step 0xD0 st2 (bus_idle_selected _ I2))
    as (st3 & E3 & F3 & I3 & P3 & _ & R3 & C3).
  assert (Hrdy3 : ready_at controlbus_pins (controlbus_reads st3) n)
    by (rewrite C3, C2, C1, Hcr0; exact Hrdy).
  destruct (wait_step fuel n st3 Hrdy3 Hfuel)
    as (st4 & E4 & F4 & V4 & _ & R4 & C4).
  assert (I4 : bus_idle (controlbus_value st4)) by (rewrite V4; exact I3).
  destruct (command_step 0x70 st4 (bus_idle_selected _ I4))
    as (st5 & E5 & F5 & I5 & P5 & _ & R5 & C5).
  destruct (data_out_step [status_register] 1 st5 I5)
    as (reg & st6 & E6 & F6 & _ & P6 & _ & R6 & C6 & Hreg).
  assert (Hir : iobus_reads st5 = iobus_reads st)
    by (rewrite R5, R4, R3, R2, R1; exact Hir0).
  rewrite Hir in F6, Hreg, R6. specialize (Hreg ltac:(cbn [length]; lia)).
  cbn [samples seq map drop app] in Hreg, F6. fold status in Hreg, F6.
  subst reg.
  pose proof (flushed_run_trans _ _ _ _ _ F1' F2) as F12.
  pose proof (flushed_run_trans _ _ _ _ _ F12 F3) as F13.
  pose proof (flushed_run_trans _ _ _ _ _ F13 F4) as F14.
  pose proof (flushed_run_trans _ _ _ _ _ F14 F5) as F15.
  pose proof (flushed_run_trans _ _ _ _ _ F15 F6) as F16.
  exists (controlbus_pin_set PIN_nWP OFF st6). eexists.
  split; [|split; [|split; [|split; [|split; [|split]]]]].
  - unfold erase_block. fold a.
    change (nth 0 CMD_BLOCKERASE 0) with 96.
    change (nth 1 CMD_BLOCKERASE 0) with 208.
    change CMD_READSTATUS with 112.
    cbv zeta. fold st0. rewrite E1. cbv beta iota. rewrite E2. cbv beta iota.
    rewrite E3. cbv beta iota. rewrite E4, E5. cbv beta iota. rewrite E6.
    cbv beta iota. change (nth 0 [status] 0) with status.
    destruct (pin_high status STATUSREG_IO0); reflexivity.
  - destruct st6. run_bus. apply F16.
  - reflexivity.
  - rewrite (bus_ops_run _ _ _ _ F15), (bus_ops_run _ _ _ _ F14),
      (bus_ops_run _ _ _ _ F13), (bus_ops_run _ _ _ _ F12),
      (bus_ops_run _ _ _ _ F1').
    rewrite (command_wire_ops (controlbus_value st)) by assumption.
    destruct (bus_idle_pins _ I1) as (Hce1 & Hre1 & Hale1 & Hcle1 & Hwe1).
    rewrite address_wire_ops by (assumption || reflexivity).
    rewrite command_wire_ops by (apply bus_idle_selected, I2 || reflexivity).
    rewrite C3, C2, C1, Hcr0, poll_wire_ops.
    rewrite (poll_ops_ready _ _ _ Hrdy).
    rewrite command_wire_ops by (apply bus_idle_selected, I4 || reflexivity).
    rewrite data_out_wire_ops by exact I5.
    rewrite <- !app_assoc. reflexivity.
  - assert (W1 : pin_high (controlbus_value st1) PIN_nWP = true)
      by (rewrite P1; exact Hwp0).
    assert (W2 : pin_high (controlbus_value st2) PIN_nWP = true)
      by (rewrite P2; exact W1).
    assert (W3 : pin_high (controlbus_value st3) PIN_nWP = true)
      by (rewrite P3; exact W2).
    assert (W4 : pin_high (controlbus_value st4) PIN_nWP = true)
      by (rewrite V4; exact W3).
    assert (W5 : pin_high (controlbus_value st5) PIN_nWP = true)
      by (rewrite P5; exact W4).
    apply control_writes_app;
      [apply control_writes_app;
         [apply control_writes_app;
            [apply control_writes_app; [apply control_writes_app|]|]|]|].
    + apply command_wire_keeps; [exact Hwp0 | apply chip_selected_nCE, Hsel0].
    + apply address_wire_keeps;
        [exact W1 | apply chip_selected_nCE, bus_idle_selected, I1].
    + apply command_wire_keeps;
        [exact W2 | apply chip_selected_nCE, bus_idle_selected, I2].
    + apply poll_wire_keeps.
    + apply command_wire_keeps;
        [exact W4 | apply chip_selected_nCE, bus_idle_selected, I4].
    + apply data_out_wire_keeps;
        [exact W5 | apply chip_selected_nCE, bus_idle_selected, I5].
  - unfold controlbus_pin_set, with_controlbus_value. cbn [iobus_reads].
    rewrite R6. lia.
  - unfold controlbus_pin_set, with_controlbus_value. cbn [controlbus_reads].
    rewrite C6, C5, C4, C3, C2, C1, Hcr0. reflexivity.
Qed.

(** ** A whole run of the reader *)







Lemma flushed_run_refl st : flushed_run st st [].
Proof. unfold flushed_run. rewrite app_nil_r. auto. Qed.



(** ** The addresses of the page loop *)

Lemma dump_memory_page_ops fuel n mem_address mem_large_block (st : state) :
  chip_selected (controlbus_value st) ->
  ready_at controlbus_pins (controlbus_reads st) n ->
  (n < fuel)%nat ->
  length mem_large_block = 2112%nat ->
  exists st' evs,
    dump_memory_page fuel mem_address mem_large_block st
    = Some (samples iobus_pins (iobus_reads st) 2112, st')
    /\ flushed_run st st' evs
    /\ bus_ops (controlbus_value st) (iobus_value st) evs
       = page_ops mem_address n (samples iobus_pins (iobus_reads st) 2112)
    /\ chip_selected (controlbus_value st')
    /\ iobus_reads st' = (iobus_reads st + 2112)%nat.
Proof.
  intros Hsel Hrdy Hfuel Hlen.
  destruct (command_step 0x00 st Hsel)
    as (st1 & E1 & F1 & I1 & _ & _ & R1 & C1).
  destruct (address_step (get_address_cycle_map_x8 mem_address) 5 st1 I1)
    as (st2 & E2 & F2 & I2 & _ & _ & R2 & C2).
  rewrite page_address_bytes in F2.
  destruct (command_step 0x30 st2 (bus_idle_selected _ I2))
    as (st3 & E3 & F3 & I3 & _ & _ & R3 & C3).
  assert (Hrdy3 : ready_at controlbus_pins (controlbus_reads st3) n)
    by (rewrite C3, C2, C1; exact Hrdy).
  destruct (wait_step fuel n st3 Hrdy3 Hfuel)
    as (st4 & E4 & F4 & V4 & _ & R4 & C4).
  assert (I4 : bus_idle (controlbus_value st4)) by (rewrite V4; exact I3).
  destruct (data_out_step mem_large_block 2112 st4 I4)
    as (page' & st5 & E5 & F5 & I5 & _ & _ & R5 & _ & Hpage).
  rewrite R4, R3, R2, R1 in Hpage, R5, F5.
  specialize (Hpage ltac:(lia)). rewrite drop_ge, app_nil_r in Hpage by lia.
  subst page'.
  pose proof (flushed_run_trans _ _ _ _ _ F1 F2) as F12.
  pose proof (flushed_run_trans _ _ _ _ _ F12 F3) as F13.
  pose proof (flushed_run_trans _ _ _ _ _ F13 F4) as F14.
  pose proof (flushed_run_trans _ _ _ _ _ F14 F5) as F15.
  exists st5. eexists.
  split; [|split; [exact F15|split; [|split]]].
  - unfold dump_memory_page.
    change (nth 0 CMD_READ1 0) with 0. change (nth 1 CMD_READ1 0) with 48.
    cbv zeta. rewrite E1. cbv beta iota. rewrite E2. cbv beta iota.
    rewrite E3. cbv beta iota. rewrite E4, E5. reflexivity.
  - rewrite (bus_ops_run _ _ _ _ F14), (bus_ops_run _ _ _ _ F13),
      (bus_ops_run _ _ _ _ F12), (bus_ops_run _ _ _ _ F1).
    rewrite command_wire_ops by (assumption || reflexivity).
    destruct (bus_idle_pins _ I1) as (Hce1 & Hre1 & Hale1 & Hcle1 & Hwe1).
    rewrite address_wire_ops by (assumption || reflexivity).
    rewrite command_wire_ops by (apply bus_idle_selected, I2 || reflexivity).
    rewrite poll_wire_ops, (poll_ops_ready _ _ _ Hrdy3).
    rewrite data_out_wire_ops by exact I4.
    unfold page_ops. rewrite <- !app_assoc. reflexivity.
  - apply bus_idle_selected, I5.
  - exact R5.
Qed.

(** X17: the page loop of [dump_memory], started at a linear address that
    fits [uint32_t] on a selected chip whose RDY line rises within [fuel]
    polls of every busy wait, makes the device read exactly one page read per
    pass and nothing in between: pass [k] (from 0) latches the five address
    cycles of [mem_address + 2112 * k] (modulo [2^32]) and latches out the
    2112 bytes sampled at that point.  [polls] holds, per pass, the number of
    polls that showed busy.  While [mem_address + 2112 * pages] stays within
    [2^32], as it does for the [64 * 4096] pages from 0 of the whole dump,
    the address does not wrap. *)
Theorem dump_memory_loop_addresses fuel pages :
  forall mem_address mem_large_block file (st : state),
  0 <= mem_address < 2 ^ 32 ->
  chip_selected (controlbus_value st) ->
  length mem_large_block = 2112%nat ->
  (forall k, exists n, (n < fuel)%nat /\ ready_at controlbus_pins k n) ->
  exists st' evs polls file',
    dump_memory_loop fuel pages mem_address mem_large_block file st
    = Some (file', st')
    /\ wire st' = wire st ++ evs
    /\ length polls = pages
    /\ bus_ops (controlbus_value st) (iobus_value st) evs
       = concat
           (imap (fun k n =>
                    page_ops ((mem_address + 2112 * Z.of_nat k) mod 2 ^ 32) n
                      (samples iobus_pins (iobus_reads st + k * 2112) 2112))
              polls)
    /\ (mem_address + 2112 * Z.of_nat pages <= 2 ^ 32 ->
        forall k, (k < pages)%nat ->
          (mem_address + 2112 * Z.of_nat k) mod 2 ^ 32
          = mem_address + 2112 * Z.of_nat k)
    /\ chip_selected (controlbus_value st')
    /\ controlbus_value st' = control_pins_driven (controlbus_value st) evs
    /\ iobus_value st' = io_pins_driven (iobus_value st) evs.
Proof.
  induction pages as [|pages IH];
    intros mem_address mem_large_block file st Ha Hsel Hlen Hready.
  - exists st, [], [], file. cbn [dump_memory_loop imap concat length bus_ops].
    rewrite app_nil_r.
    repeat split; try assumption; try apply Hsel. intros _ k Hk. lia.
  - destruct (Hready (controlbus_reads st)) as (n & Hfuel & Hrdy).
    destruct (dump_memory_page_ops fuel n mem_address mem_large_block st
                Hsel Hrdy Hfuel Hlen)
      as (st1 & evs1 & E1 & F1 & O1 & Hsel1 & R1).
    assert (Ha' : 0 <= (mem_address + 2112) mod 2 ^ 32 < 2 ^ 32)
      by (apply Z.mod_pos_bound; reflexivity).
    destruct (IH ((mem_address + 2112) mod 2 ^ 32)
                (samples iobus_pins (iobus_reads st) 2112)
                (file ++ take 2112 (samples iobus_pins (iobus_reads st) 2112))
                st1 Ha' Hsel1 (length_samples _ _ _) Hready)
      as (st' & evs2 & polls & file' & E2 & Hw2 & Hp & O2 & _ & Hsel' & Hc2 & Hi2).
    pose proof (flushed_run_trans st st1 st' evs1 evs2 F1 (conj Hw2 (conj Hc2 Hi2)))
      as (Hw & Hc & Hi).
    exists st', (evs1 ++ evs2), (n :: polls), file'.
    split; [|split; [exact Hw|split; [|split; [|split; [|split; [|split]]]]]].
    + cbn [dump_memory_loop]. rewrite E1. exact E2.
    + cbn [length]. rewrite Hp. reflexivity.
    + rewrite (bus_ops_run _ _ _ _ F1), O1, O2. rewrite imap_cons.
      cbn [concat]. f_equal.
      * rewrite Z.mul_0_r, Z.add_0_r, Z.mod_small by exact Ha.
        rewrite Nat.mul_0_l, Nat.add_0_r. reflexivity.
      * f_equal. apply imap_ext. intros k m _. unfold compose.
        rewrite Zplus_mod_idemp_l, R1. f_equal.
        -- f_equal. lia.
        -- f_equal. lia.
    + intros Hfit k Hk. apply Z.mod_small. lia.
    + exact Hsel'.
    + exact Hc.
    + exact Hi.
Qed.

(** ** A device that never gets ready *)

Lemma dump_memory_page_never fuel mem_address mem_large_block (st : state) :
  (forall j, pin_high (sample controlbus_pins j) PIN_RDY = false) ->
  dump_memory_page fuel mem_address mem_large_block st = None.
Proof.
  intros Hbusy. unfold dump_memory_page. cbv zeta.
  destruct (latch_command (nth 0 CMD_READ1 0) st) as [r1 st1].
  destruct (latch_address (get_address_cycle_map_x8 mem_address) 5 st1)
    as [r2 st2].
  destruct (latch_command (nth 1 CMD_READ1 0) st2) as [r3 st3].
  rewrite wait_busy_never by (intros j; apply Hbusy). reflexivity.
Qed.

(** X18: neither operation has a time-out.  If the RDY line never shows
    high, then from every state, selected or not, and for every bound on the
    number of polls followed, a page read, the page loop with at least one
    page, [dump_memory], [erase_block] and the whole run of [main] are still
    polling: none of them returns. *)
Theorem busy_wait_has_no_timeout fuel (st : state) :
  (forall j, pin_high (sample controlbus_pins j) PIN_RDY = false) ->
  (forall mem_address mem_large_block,
     dump_memory_page fuel mem_address mem_large_block st = None)
  /\ (forall pages mem_address mem_large_block file,
        dump_memory_loop fuel (S pages) mem_address mem_large_block file st
        = None)
  /\ (forall mem_large_block, dump_memory fuel mem_large_block st = None)
  /\ (forall nBlockId status_register,
        erase_block fuel nBlockId status_register st = None)
  /\ (forall ID_register mem_large_block,
        main_bus_session fuel ID_register mem_large_block st = None).
Proof.
  intros Hbusy.
  assert (Hloop : forall st0 pages mem_address mem_large_block file,
            dump_memory_loop fuel (S pages) mem_address mem_large_block file st0
            = None).
  { intros st0 pages mem_address mem_large_block file. cbn [dump_memory_loop].
    rewrite dump_memory_page_never by exact Hbusy. reflexivity. }
  assert (Hdump : forall st0 mem_large_block,
            dump_memory fuel mem_large_block st0 = None).
  { intros st0 mem_large_block. unfold dump_memory.
    replace (64 * 4096)%nat with (S (64 * 4096 - 1)) by lia. apply Hloop. }
  split; [|split; [|split; [|split]]].
  - intros mem_address mem_large_block.
    apply dump_memory_page_never, Hbusy.
  - apply Hloop.
  - apply Hdump.
  - intros nBlockId status_register. unfold erase_block. cbv zeta.
    destruct (latch_command (nth 0 CMD_BLOCKERASE 0) _) as [r1 st1].
    destruct (latch_address _ 3 st1) as [r2 st2].
    destruct (latch_command (nth 1 CMD_BLOCKERASE 0) st2) as [r3 st3].
    rewrite wait_busy_never by (intros j; apply Hbusy). reflexivity.
  - intros ID_register mem_large_block. unfold main_bus_session. cbv zeta.
    destruct (main_read_ID ID_register (main_bus_setup st)) as [[r verdict] st1].
    rewrite Hdump. reflexivity.
Qed.

(** ** A chip that is not selected *)

Lemma latch_command_unselected command (st : state) :
  pin_high (controlbus_value st) PIN_nCE = true ->
  latch_command command st = (EXIT_FAILURE, st).
Proof. intros H. unfold latch_command. rewrite H. reflexivity. Qed.

Lemma latch_address_unselected address addr_length (st : state) :
  pin_high (controlbus_value st) PIN_nCE = true ->
  latch_address address addr_length st = (EXIT_FAILURE, st).
Proof. intros H. unfold latch_address. rewrite H. reflexivity. Qed.

Lemma latch_register_unselected reg reg_length (st : state) :
  pin_high (controlbus_value st) PIN_nCE = true ->
  latch_register reg reg_length st = (EXIT_FAILURE, reg, st).
Proof. intros H. unfold latch_register. rewrite H. reflexivity. Qed.

(** X19: the results of the latch functions are not looked at.  With nCE
    high in the held control byte and a RDY line that rises, a page read
    and [erase_block] still return as if all had gone well, although every
    latch call has failed: the only transactions added to the wire are the
    polls of the busy wait, so the device is given no command and no
    address; the page array comes back as it was passed in (in the source,
    not initialised), and it is this array that the loop appends to the dump
    file; the result of [erase_block] is decided by bit 0 of the value its
    local [status_register] happened to hold. *)
Theorem latch_failures_ignored fuel n (st : state) :
  pin_high (controlbus_value st) PIN_nCE = true ->
  ready_at controlbus_pins (controlbus_reads st) n ->
  (n < fuel)%nat ->
  let polls := poll_wire (samples controlbus_pins (controlbus_reads st) (S n)) in
  (forall mem_address mem_large_block file pages,
     exists st',
       dump_memory_page fuel mem_address mem_large_block st
       = Some (mem_large_block, st')
       /\ wire st' = wire st ++ polls
       /\ controlbus_value st' = controlbus_value st
       /\ iobus_reads st' = iobus_reads st
       /\ dump_memory_loop fuel (S pages) mem_address mem_large_block file st
          = dump_memory_loop fuel pages ((mem_address + 2112) mod 2 ^ 32)
              mem_large_block (file ++ take 2112 mem_large_block) st')
  /\ (forall nBlockId status_register,
        exists st',
          erase_block fuel nBlockId status_register st
          = Some (if pin_high status_register STATUSREG_IO0 then 1 else 0, st')
          /\ wire st' = wire st ++ polls
          /\ iobus_reads st' = iobus_reads st).
Proof.
  intros Hce Hrdy Hfuel polls. split.
  - intros mem_address mem_large_block file pages.
    destruct (wait_step fuel n st Hrdy Hfuel)
      as (st' & E & (Hw & _) & Hv & _ & Hir & _).
    assert (Hce' : pin_high (controlbus_value st') PIN_nCE = true)
      by (rewrite Hv; exact Hce).
    assert (Hpage : dump_memory_page fuel mem_address mem_large_block st
                    = Some (mem_large_block, st')).
    { unfold dump_memory_page. cbv zeta.
      rewrite (latch_command_unselected _ st Hce).
      rewrite (latch_address_unselected _ _ st Hce).
      rewrite (latch_command_unselected _ st Hce).
      rewrite E. rewrite (latch_register_unselected _ _ st' Hce').
      reflexivity. }
    exists st'. split; [exact Hpage|]. split; [exact Hw|].
    split; [exact Hv|]. split; [exact Hir|].
    cbn [dump_memory_loop]. rewrite Hpage. reflexivity.
  - intros nBlockId status_register.
    set (st0 := controlbus_pin_set PIN_nWP ON st).
    assert (Hce0 : pin_high (controlbus_value st0) PIN_nCE = true).
    { subst st0. unfold controlbus_pin_set, with_controlbus_value.
      cbn [controlbus_value]. rewrite <- Hce. pin_bits. reflexivity. }
    assert (Hrdy0 : ready_at controlbus_pins (controlbus_reads st0) n)
      by exact Hrdy.
    destruct (wait_step fuel n st0 Hrdy0 Hfuel)
      as (st1 & E & (Hw & _) & Hv & _ & Hir & _).
    assert (Hce1 : pin_high (controlbus_value st1) PIN_nCE = true)
      by (rewrite Hv; exact Hce0).
    exists (controlbus_pin_set PIN_nWP OFF st1).
    split; [|split].
    + unfold erase_block. cbv zeta. fold st0.
      rewrite (latch_command_unselected _ st0 Hce0).
      rewrite (latch_address_unselected _ _ st0 Hce0).
      rewrite (latch_command_unselected _ st0 Hce0).
      rewrite E. rewrite (latch_command_unselected _ st1 Hce1).
      rewrite (latch_register_unselected _ _ st1 Hce1).
      cbn [nth].
      destruct (pin_high status_register STATUSREG_IO0); reflexivity.
    + unfold controlbus_pin_set, with_controlbus_value. cbn [wire].
      exact Hw.
    + unfold controlbus_pin_set, with_controlbus_value. cbn [iobus_reads].
      exact Hir.
Qed.

End Device.

(** * The operations on simulated devices *)

Lemma ready_after_at (busy k : nat) :
  (k <= busy)%nat -> ready_at (ready_after busy) k (busy - k).
Proof.
  intros Hk. unfold ready_at, sample, ready_after. split.
  - intros j Hj. destruct (Nat.ltb_spec (k + j) busy); [reflexivity | lia].
  - destruct (Nat.ltb_spec (k + (busy - k)) busy); [lia | reflexivity].
Qed.

Lemma ready_after_bounded (busy k : nat) :
  exists n, (n < S busy)%nat /\ ready_at (ready_after busy) k n.
Proof.
  destruct (Nat.le_gt_cases k busy) as [Hk|Hk].
  - exists (busy - k)%nat. split; [lia | apply ready_after_at, Hk].
  - exists 0%nat. split; [lia|]. split; [intros j Hj; lia|].
    unfold sample, ready_after.
    destruct (Nat.ltb_spec (k + 0) busy); [lia | reflexivity].
Qed.

(** The state in which [main] starts the ID read has the chip selected. *)
Lemma main_bus_setup_selected iobus_pins controlbus_pins :
  chip_selected
    (controlbus_value (main_bus_setup iobus_pins controlbus_pins session_start)).
Proof. repeat split. Qed.

(** C2, at block 1: the device is given the row address of linear address
    [2048 * 64 * 1 = 0x20000], whose cycles 2..4 are 0x20 0x00 0x00, and not
    that of [1 * 64 * 2112 = 0x21000], whose cycles 2..4 are 0x21 0x00 0x00.
    Exactly three address bytes are latched, between the commands 0x60 and
    0xD0. *)
Theorem erase_block_address_of_block_1 :
  let iobus_pins := replay [0x00; 0xE0] 0xFF in
  let st := main_bus_setup iobus_pins (ready_after 0) session_start in
  exists st',
    erase_block iobus_pins (ready_after 0) 1 1 0x00 st = Some (0, st')
    /\ bus_ops (controlbus_value st) (iobus_value st)
         (drop (length (wire st)) (wire st'))
       = [OpCommand 0x60; OpAddress 0x20; OpAddress 0x00; OpAddress 0x00;
          OpCommand 0xD0; OpPoll true; OpCommand 0x70; OpDataOut 0xE0]
    /\ drop 2 (get_address_cycle_map_x8 (2048 * 64 * 1)) = [0x20; 0x00; 0x00]
    /\ drop 2 (get_address_cycle_map_x8 (1 * 64 * 2112)) = [0x21; 0x00; 0x00].
Proof.
  cbv zeta.
  remember (erase_block _ _ _ _ _ _) as r eqn:E. vm_compute in E. subst r.
  eexists. split; [reflexivity|]. repeat split; vm_compute; reflexivity.
Qed.

(** C3, at block 0: [erase_block] returns with nWP low in the held control
    byte, but the last byte written to the control pins is 0x38, with nWP
    high; the last transaction on the wire is the direction change of
    [latch_register], so the clearing of nWP was never flushed.  On entry the
    state was flushed: the pins carried the held byte 0x10. *)
Theorem erase_block_write_protect_not_flushed :
  let iobus_pins := replay [0x00; 0xE0] 0xFF in
  let st := main_bus_setup iobus_pins (ready_after 0) session_start in
  exists st',
    erase_block iobus_pins (ready_after 0) 1 0 0x00 st = Some (0, st')
    /\ control_pins_driven 0x00 (wire st) = controlbus_value st
    /\ controlbus_value st' = 0x18
    /\ pin_high (controlbus_value st') PIN_nWP = false
    /\ control_pins_driven 0x00 (wire st') = 0x38
    /\ pin_high (control_pins_driven 0x00 (wire st')) PIN_nWP = true
    /\ last (wire st') = Some (EvIoBitmode IOBUS_BITMASK_WRITE).
Proof.
  cbv zeta.
  remember (erase_block _ _ _ _ _ _) as r eqn:E. vm_compute in E. subst r.
  eexists. split; [reflexivity|]. repeat split; vm_compute; reflexivity.
Qed.

Lemma latch_command_precondition_violation_witness :
  (pin_high (controlbus_value session_start) PIN_nCE = true
   \/ pin_high (controlbus_value session_start) PIN_nRE = false)
  /\ latch_command CMD_READID session_start = (EXIT_FAILURE, session_start)
  /\ EXIT_FAILURE <> 0.
Proof.
  assert (H : pin_high (controlbus_value session_start) PIN_nCE = true
              \/ pin_high (controlbus_value session_start) PIN_nRE = false)
    by (right; reflexivity).
  split; [exact H|].
  exact (latch_command_precondition_violation CMD_READID session_start H).
Defined.

Lemma wait_busy_unbounded_witness :
  (exists m, pin_high (sample (ready_after 2) (controlbus_reads session_start + m))
               PIN_RDY = true)
  /\ (exists n st', forall fuel, (n < fuel)%nat ->
        wait_busy (ready_after 2) fuel session_start = Some st')
  /\ (forall m, pin_high (sample never_ready (controlbus_reads session_start + m))
                  PIN_RDY = false)
  /\ (forall fuel, wait_busy never_ready fuel session_start = None).
Proof.
  assert (H1 : exists m,
             pin_high (sample (ready_after 2) (controlbus_reads session_start + m))
               PIN_RDY = true)
    by (exists 2%nat; reflexivity).
  assert (H2 : forall m,
             pin_high (sample never_ready (controlbus_reads session_start + m))
               PIN_RDY = false)
    by (intros m; reflexivity).
  split; [exact H1|]. split.
  - destruct (proj1 (wait_busy_unbounded (ready_after 2) session_start) H1)
      as (n & st' & _ & Hret & _).
    exists n, st'. exact Hret.
  - split; [exact H2|].
    exact (proj1 (proj2 (wait_busy_unbounded never_ready session_start)) H2).
Defined.

Lemma latch_register_restores_output_witness :
  let st := mkState 0x90 0x18 IOBUS_BITMASK_WRITE [] 0 0 in
  pin_high (controlbus_value st) PIN_nCE = false
  /\ pin_high (controlbus_value st) PIN_nWE = true
  /\ pin_high (controlbus_value st) PIN_ALE = false
  /\ (exists reg' st',
        latch_register (replay [0xAD; 0xDC] 0xFF) [0x00; 0x00] 0 st = (0, reg', st')
        /\ iobus_bitmask st' = IOBUS_BITMASK_WRITE)
  /\ (exists reg' st',
        latch_register (replay [0xAD; 0xDC] 0xFF) [0x00; 0x00] 2 st = (0, reg', st')
        /\ iobus_bitmask st' = IOBUS_BITMASK_WRITE).
Proof.
  cbv zeta.
  set (st := mkState 0x90 0x18 IOBUS_BITMASK_WRITE [] 0 0).
  assert (Hce : pin_high (controlbus_value st) PIN_nCE = false) by reflexivity.
  assert (Hwe : pin_high (controlbus_value st) PIN_nWE = true) by reflexivity.
  assert (Hale : pin_high (controlbus_value st) PIN_ALE = false) by reflexivity.
  split; [exact Hce|]. split; [exact Hwe|]. split; [exact Hale|]. split.
  - destruct (latch_register_restores_output (replay [0xAD; 0xDC] 0xFF)
                [0x00; 0x00] 0 st Hce Hwe Hale)
      as (reg' & st' & E & _ & _ & _ & _ & _ & Hbm & _).
    exists reg', st'. split; [exact E | exact Hbm].
  - destruct (latch_register_restores_output (replay [0xAD; 0xDC] 0xFF)
                [0x00; 0x00] 2 st Hce Hwe Hale)
      as (reg' & st' & E & _ & _ & _ & _ & _ & Hbm & _).
    exists reg', st'. split; [exact E | exact Hbm].
Defined.

Lemma main_read_ID_verdict_witness :
  let iobus_pins := replay [0x00; 0xAD; 0xDC; 0x10; 0x95; 0x54] 0xFF in
  let wrong_pins := replay [0x00; 0xAD; 0x00; 0x10; 0x95; 0x54] 0xFF in
  let ID_register := [0x00; 0x00; 0x00; 0x00; 0x00] in
  let st := main_bus_setup iobus_pins never_ready session_start in
  let st_wrong := main_bus_setup wrong_pins never_ready session_start in
  pin_high (controlbus_value st) PIN_nCE = false
  /\ pin_high (controlbus_value st) PIN_nRE = true
  /\ length ID_register = 5%nat
  /\ snd (fst (main_read_ID iobus_pins ID_register st))
     = "PASS: ID register did match"%string
  /\ snd (fst (main_read_ID wrong_pins ID_register st_wrong))
     = "FAIL: ID register did not match"%string.
Proof.
  cbv zeta.
  set (iobus_pins := replay [0x00; 0xAD; 0xDC; 0x10; 0x95; 0x54] 0xFF).
  set (wrong_pins := replay [0x00; 0xAD; 0x00; 0x10; 0x95; 0x54] 0xFF).
  set (ID_register := [0x00; 0x00; 0x00; 0x00; 0x00]).
  set (st := main_bus_setup iobus_pins never_ready session_start).
  set (st_wrong := main_bus_setup wrong_pins never_ready session_start).
  assert (Hce : pin_high (controlbus_value st) PIN_nCE = false) by reflexivity.
  assert (Hre : pin_high (controlbus_value st) PIN_nRE = true) by reflexivity.
  assert (Hce' : pin_high (controlbus_value st_wrong) PIN_nCE = false) by reflexivity.
  assert (Hre' : pin_high (controlbus_value st_wrong) PIN_nRE = true) by reflexivity.
  assert (Hlen : length ID_register = 5%nat) by reflexivity.
  split; [exact Hce|]. split; [exact Hre|]. split; [exact Hlen|]. split.
  - destruct (main_read_ID_verdict iobus_pins ID_register st Hce Hre Hlen)
      as (verdict & st' & E & Hpass & _).
    rewrite E. apply Hpass. reflexivity.
  - destruct (main_read_ID_verdict wrong_pins ID_register st_wrong Hce' Hre' Hlen)
      as (verdict & st' & E & _ & Hfail).
    rewrite E. apply Hfail. discriminate.
Defined.

Lemma erase_block_status_result_witness :
  let iobus_pins := replay [0x00; 0xE1] 0xFF in
  let controlbus_pins := ready_after 3 in
  let st := main_bus_setup iobus_pins controlbus_pins session_start in
  chip_selected (controlbus_value st)
  /\ ready_at controlbus_pins (controlbus_reads st) 2
  /\ (2 < 3)%nat
  /\ exists st',
       erase_block iobus_pins controlbus_pins 3 7 0x00 st = Some (1, st')
       /\ pin_high (controlbus_value st') PIN_nWP = false.
Proof.
  cbv zeta.
  set (iobus_pins := replay [0x00; 0xE1] 0xFF).
  set (controlbus_pins := ready_after 3).
  set (st := main_bus_setup iobus_pins controlbus_pins session_start).
  assert (Hsel : chip_selected (controlbus_value st)) by (repeat split).
  assert (Hrdy : ready_at controlbus_pins (controlbus_reads st) 2)
    by (apply (ready_after_at 3 1); repeat constructor).
  assert (Hfuel : (2 < 3)%nat) by (repeat constructor).
  split; [exact Hsel|]. split; [exact Hrdy|]. split; [exact Hfuel|].
  exact (proj2 (erase_block_status_result iobus_pins controlbus_pins 3 7 0x00 st)
           Hsel 2%nat Hrdy Hfuel).
Defined.

Lemma dump_memory_page_sequence_witness :
  let iobus_pins := replay [0x00; 0x11; 0x22; 0x33] 0xFF in
  let controlbus_pins := ready_after 3 in
  let st := main_bus_setup iobus_pins controlbus_pins session_start in
  let mem_large_block := repeat 0x00 2112 in
  chip_selected (controlbus_value st)
  /\ ready_at controlbus_pins (controlbus_reads st) 2
  /\ (2 < 3)%nat
  /\ length mem_large_block = 2112%nat
  /\ exists st' evs,
       dump_memory_page iobus_pins controlbus_pins 3 0x10000000 mem_large_block st
       = Some (samples iobus_pins (iobus_reads st) 2112, st')
       /\ wire st' = wire st ++ evs
       /\ bus_ops (controlbus_value st) (iobus_value st) evs
          = [OpCommand 0x00] ++ map OpAddress [0x00; 0x00; 0x00; 0x00; 0x01]
            ++ [OpCommand 0x30] ++ [OpPoll false; OpPoll false; OpPoll true]
            ++ map OpDataOut (samples iobus_pins (iobus_reads st) 2112).
Proof.
  cbv zeta.
  set (iobus_pins := replay [0x00; 0x11; 0x22; 0x33] 0xFF).
  set (controlbus_pins := ready_after 3).
  set (st := main_bus_setup iobus_pins controlbus_pins session_start).
  set (mem_large_block := repeat 0x00 2112).
  assert (Hsel : chip_selected (controlbus_value st)) by (repeat split).
  assert (Hrdy : ready_at controlbus_pins (controlbus_reads st) 2)
    by (apply (ready_after_at 3 1); repeat constructor).
  assert (Hfuel : (2 < 3)%nat) by (repeat constructor).
  assert (Hlen : length mem_large_block = 2112%nat) by apply repeat_length.
  split; [exact Hsel|]. split; [exact Hrdy|]. split; [exact Hfuel|].
  split; [exact Hlen|].
  destruct (dump_memory_page_sequence iobus_pins controlbus_pins 3 2 0x10000000
              mem_large_block st Hsel Hrdy Hfuel Hlen)
    as (st' & evs & v1 & v2 & v3 & E & Hw & _ & _ & _ & Hops & _).
  exists st', evs. split; [exact E|]. split; [exact Hw|]. exact Hops.
Defined.

Lemma pin_set_frame_witness :
  let st := mkState 0x90 0x18 IOBUS_BITMASK_WRITE [] 0 0 in
  0 <= PIN_nWP < 256
  /\ 0 <= controlbus_value st < 256
  /\ 0 <= iobus_value st < 256
  /\ controlbus_value (controlbus_pin_set PIN_nWP ON st) = 0x38
  /\ controlbus_pin_set PIN_nWP ON (controlbus_pin_set PIN_nWP ON st)
     = controlbus_pin_set PIN_nWP ON st
  /\ wire (controlbus_pin_set PIN_nWP ON st) = wire st
  /\ wire (iobus_pin_set PIN_nWP ON st) = wire st.
Proof.
  cbv zeta.
  set (st := mkState 0x90 0x18 IOBUS_BITMASK_WRITE [] 0 0).
  assert (Hp : 0 <= PIN_nWP < 256) by (split; discriminate || reflexivity).
  assert (Hc : 0 <= controlbus_value st < 256) by (split; discriminate || reflexivity).
  assert (Hd : 0 <= iobus_value st < 256) by (split; discriminate || reflexivity).
  split; [exact Hp|]. split; [exact Hc|]. split; [exact Hd|].
  destruct (pin_set_frame PIN_nWP ON st Hp Hc Hd)
    as (_ & _ & Hidem & _ & _ & _ & Hw & Hw').
  split; [reflexivity|]. split; [exact Hidem|]. split; [exact Hw | exact Hw'].
Defined.

Lemma latch_address_precondition_violation_witness :
  let st := mkState 0x90 (PIN_nRE + PIN_CLE) IOBUS_BITMASK_WRITE [] 0 0 in
  (pin_high (controlbus_value st) PIN_nCE = true
   \/ pin_high (controlbus_value st) PIN_CLE = true
   \/ pin_high (controlbus_value st) PIN_nRE = false)
  /\ latch_address [0x00] 1 st = (EXIT_FAILURE, st).
Proof.
  cbv zeta.
  set (st := mkState 0x90 (PIN_nRE + PIN_CLE) IOBUS_BITMASK_WRITE [] 0 0).
  assert (H : pin_high (controlbus_value st) PIN_nCE = true
              \/ pin_high (controlbus_value st) PIN_CLE = true
              \/ pin_high (controlbus_value st) PIN_nRE = false)
    by (right; left; reflexivity).
  split; [exact H|].
  exact (proj1 (latch_address_precondition_violation [0x00] 1 st H)).
Defined.

Lemma latch_register_precondition_violation_witness :
  (pin_high (controlbus_value session_start) PIN_nCE = true
   \/ pin_high (controlbus_value session_start) PIN_nWE = false
   \/ pin_high (controlbus_value session_start) PIN_ALE = true)
  /\ latch_register never_ready [0x55] 1 session_start
     = (EXIT_FAILURE, [0x55], session_start).
Proof.
  assert (H : pin_high (controlbus_value session_start) PIN_nCE = true
              \/ pin_high (controlbus_value session_start) PIN_nWE = false
              \/ pin_high (controlbus_value session_start) PIN_ALE = true)
    by (right; left; reflexivity).
  split; [exact H|].
  exact (proj1 (latch_register_precondition_violation never_ready [0x55] 1
                  session_start H)).
Defined.

Lemma latch_command_sequence_witness :
  let st := main_bus_setup never_ready never_ready session_start in
  chip_selected (controlbus_value st)
  /\ exists st',
       latch_command CMD_READID st = (0, st')
       /\ bus_ops (controlbus_value st) (iobus_value st)
            (command_wire (controlbus_value st) CMD_READID)
          = [OpCommand 0x90].
Proof.
  cbv zeta. set (st := main_bus_setup never_ready never_ready session_start).
  assert (Hsel : chip_selected (controlbus_value st)) by (repeat split).
  split; [exact Hsel|].
  destruct (latch_command_sequence CMD_READID st Hsel)
    as (st' & E & _ & _ & Hops & _).
  exists st'. split; [exact E | exact Hops].
Defined.

Lemma latch_address_sequence_witness :
  let st := mkState 0x90 0x18 IOBUS_BITMASK_WRITE [] 0 0 in
  bus_idle (controlbus_value st)
  /\ (3 <= length [0x20; 0x00; 0x00])%nat
  /\ exists st',
       latch_address [0x20; 0x00; 0x00] 3 st = (0, st')
       /\ bus_ops (controlbus_value st) (iobus_value st)
            (address_wire (controlbus_value st) [0x20; 0x00; 0x00])
          = [OpAddress 0x20; OpAddress 0x00; OpAddress 0x00].
Proof.
  cbv zeta. set (st := mkState 0x90 0x18 IOBUS_BITMASK_WRITE [] 0 0).
  assert (Hidle : bus_idle (controlbus_value st)) by (repeat split).
  assert (Hlen : (3 <= length [0x20; 0x00; 0x00])%nat) by (repeat constructor).
  split; [exact Hidle|]. split; [exact Hlen|].
  destruct (latch_address_sequence [0x20; 0x00; 0x00] 3 st Hidle Hlen)
    as (st' & E & _ & Hops & _).
  exists st'. split; [exact E | exact Hops].
Defined.


Lemma controlbus_pin_set_compose_witness :
  Z.land PIN_nRE PIN_nCE = 0
  /\ controlbus_pin_set PIN_nRE ON (controlbus_pin_set PIN_nCE OFF session_start)
     = controlbus_pin_set PIN_nCE OFF (controlbus_pin_set PIN_nRE ON session_start)
  /\ iobus_pin_set PIN_nRE ON (iobus_pin_set PIN_nRE OFF session_start)
     = iobus_pin_set PIN_nRE ON session_start.
Proof.
  assert (H : Z.land PIN_nRE PIN_nCE = 0) by reflexivity.
  split; [exact H|].
  destruct (controlbus_pin_set_compose PIN_nRE PIN_nCE ON OFF session_start H)
    as (Hcomm & _ & _ & Hlast).
  split; [exact Hcomm | exact Hlast].
Defined.

Lemma latch_register_array_witness :
  let iobus_pins := replay [0xAD; 0xDC] 0xFF in
  let st := mkState 0x90 0x18 IOBUS_BITMASK_WRITE [] 0 0 in
  let reg := [0x00; 0x00; 0x77] in
  let reg' := snd (fst (latch_register iobus_pins reg 2 st)) in
  pin_high (controlbus_value st) PIN_nCE = false
  /\ pin_high (controlbus_value st) PIN_nWE = true
  /\ pin_high (controlbus_value st) PIN_ALE = false
  /\ (2 <= length reg)%nat
  /\ length reg' = 3%nat
  /\ nth 0 reg' 0 = 0xAD /\ nth 1 reg' 0 = 0xDC /\ nth 2 reg' 0 = 0x77.
Proof.
  cbv zeta.
  set (iobus_pins := replay [0xAD; 0xDC] 0xFF).
  set (st := mkState 0x90 0x18 IOBUS_BITMASK_WRITE [] 0 0).
  set (reg := [0x00; 0x00; 0x77]).
  assert (Hce : pin_high (controlbus_value st) PIN_nCE = false) by reflexivity.
  assert (Hwe : pin_high (controlbus_value st) PIN_nWE = true) by reflexivity.
  assert (Hale : pin_high (controlbus_value st) PIN_ALE = false) by reflexivity.
  assert (Hlen : (2 <= length reg)%nat) by (repeat constructor).
  split; [exact Hce|]. split; [exact Hwe|]. split; [exact Hale|].
  split; [exact Hlen|].
  destruct (latch_register_array iobus_pins reg 2 st Hce Hwe Hale Hlen)
    as (L & Hin & Hout).
  split; [exact L|]. split; [|split].
  - exact (Hin 0%nat ltac:(repeat constructor)).
  - exact (Hin 1%nat ltac:(repeat constructor)).
  - exact (Hout 2%nat ltac:(repeat constructor)).
Defined.

Lemma erase_block_sequence_witness :
  let iobus_pins := replay [0x00; 0xE1] 0xFF in
  let controlbus_pins := ready_after 3 in
  let st := main_bus_setup iobus_pins controlbus_pins session_start in
  chip_selected (controlbus_value st)
  /\ ready_at controlbus_pins (controlbus_reads st) 2
  /\ (2 < 3)%nat
  /\ exists st' evs,
       erase_block iobus_pins controlbus_pins 3 7 0x00 st = Some (1, st')
       /\ wire st' = wire st ++ evs
       /\ bus_ops (controlbus_value st) (iobus_value st) evs
          = [OpCommand 0x60; OpAddress 0xE0; OpAddress 0x00; OpAddress 0x00;
             OpCommand 0xD0; OpPoll false; OpPoll false; OpPoll true;
             OpCommand 0x70; OpDataOut 0xE1].
Proof.
  cbv zeta.
  set (iobus_pins := replay [0x00; 0xE1] 0xFF).
  set (controlbus_pins := ready_after 3).
  set (st := main_bus_setup iobus_pins controlbus_pins session_start).
  assert (Hsel : chip_selected (controlbus_value st)) by (repeat split).
  assert (Hrdy : ready_at controlbus_pins (controlbus_reads st) 2)
    by (apply (ready_after_at 3 1); repeat constructor).
  assert (Hfuel : (2 < 3)%nat) by (repeat constructor).
  split; [exact Hsel|]. split; [exact Hrdy|]. split; [exact Hfuel|].
  destruct (erase_block_sequence iobus_pins controlbus_pins 3 2 7 0x00 st
              Hsel Hrdy Hfuel)
    as (st' & evs & E & Hw & _ & Hops & _).
  exists st', evs. split; [exact E|]. split; [exact Hw | exact Hops].
Defined.


Lemma dump_memory_loop_addresses_witness :
  let iobus_pins := replay [0x00; 0x11; 0x22; 0x33] 0xFF in
  let controlbus_pins := ready_after 3 in
  let st := main_bus_setup iobus_pins controlbus_pins session_start in
  let mem_large_block := repeat 0x00 2112 in
  0 <= 0x00000000 < 2 ^ 32
  /\ chip_selected (controlbus_value st)
  /\ length mem_large_block = 2112%nat
  /\ (forall k, exists n, (n < 4)%nat /\ ready_at controlbus_pins k n)
  /\ exists st' evs polls file',
       dump_memory_loop iobus_pins controlbus_pins 4 2 0x00000000
         mem_large_block [] st
       = Some (file', st')
       /\ length polls = 2%nat
       /\ bus_ops (controlbus_value st) (iobus_value st) evs
          = concat
              (imap (fun k n =>
                       page_ops ((0 + 2112 * Z.of_nat k) mod 2 ^ 32) n
                         (samples iobus_pins (iobus_reads st + k * 2112) 2112))
                 polls).
Proof.
  cbv zeta.
  set (iobus_pins := replay [0x00; 0x11; 0x22; 0x33] 0xFF).
  set (controlbus_pins := ready_after 3).
  set (st := main_bus_setup iobus_pins controlbus_pins session_start).
  set (mem_large_block := repeat 0x00 2112).
  assert (Ha : 0 <= 0x00000000 < 2 ^ 32) by (split; [discriminate | reflexivity]).
  assert (Hsel : chip_selected (controlbus_value st)) by (repeat split).
  assert (Hlen : length mem_large_block = 2112%nat) by apply repeat_length.
  assert (Hready : forall k, exists n, (n < 4)%nat /\ ready_at controlbus_pins k n)
    by (intros k; apply ready_after_bounded).
  split; [exact Ha|]. split; [exact Hsel|]. split; [exact Hlen|].
  split; [exact Hready|].
  destruct (dump_memory_loop_addresses iobus_pins controlbus_pins 4 2 0x00000000
              mem_large_block [] st Ha Hsel Hlen Hready)
    as (st' & evs & polls & file' & E & _ & Hp & Hops & _).
  exists st', evs, polls, file'. split; [exact E|]. split; [exact Hp | exact Hops].
Defined.

Lemma busy_wait_has_no_timeout_witness :
  let iobus_pins := replay [] 0xFF in
  (forall j, pin_high (sample never_ready j) PIN_RDY = false)
  /\ dump_memory iobus_pins never_ready 1000 (repeat 0x00 2112) session_start = None
  /\ erase_block iobus_pins never_ready 1000 7 0x00 session_start = None.
Proof.
  cbv zeta.
  assert (Hbusy : forall j, pin_high (sample never_ready j) PIN_RDY = false)
    by (intros j; reflexivity).
  split; [exact Hbusy|].
  destruct (busy_wait_has_no_timeout (replay [] 0xFF) never_ready 1000
              session_start Hbusy)
    as (_ & _ & Hdump & Herase & _).
  split; [apply Hdump | apply Herase].
Defined.

Lemma latch_failures_ignored_witness :
  let iobus_pins := replay [] 0xFF in
  let controlbus_pins := ready_after 3 in
  let st := mkState 0x00 0x14 IOBUS_BITMASK_WRITE [] 0 0 in
  pin_high (controlbus_value st) PIN_nCE = true
  /\ ready_at controlbus_pins (controlbus_reads st) 3
  /\ (3 < 4)%nat
  /\ exists st',
       erase_block iobus_pins controlbus_pins 4 7 0x01 st = Some (1, st')
       /\ wire st'
          = [EvControlRead 0x00; EvControlRead 0x00; EvControlRead 0x00;
             EvControlRead 0x40].
Proof.
  cbv zeta.
  set (iobus_pins := replay [] 0xFF).
  set (controlbus_pins := ready_after 3).
  set (st := mkState 0x00 0x14 IOBUS_BITMASK_WRITE [] 0 0).
  assert (Hce : pin_high (controlbus_value st) PIN_nCE = true) by reflexivity.
  assert (Hrdy : ready_at controlbus_pins (controlbus_reads st) 3)
    by (apply (ready_after_at 3 0); repeat constructor).
  assert (Hfuel : (3 < 4)%nat) by (repeat constructor).
  split; [exact Hce|]. split; [exact Hrdy|]. split; [exact Hfuel|].
  destruct (proj2 (latch_failures_ignored iobus_pins controlbus_pins 4 3 st
                     Hce Hrdy Hfuel) 7 0x01)
    as (st' & E & Hw & _).
  exists st'. split; [exact E | exact Hw].
Defined.
